(** * xero2: the Xero OAuth2 provider of goth, and its session

    A shallow embedding of [providers/xero2] (provider, scope catalogue,
    session) in Rocq, followed by the properties of the identity
    resolution protocol ([FetchUser]) and of the session serialisation.

    Conventions.
    - Go [string] is [string]; Go [int] is [Z]; a slice is a [list]; a
      pointer that may be nil is an [option].
    - A Go function returning [(T, error)] returns a pair whose second
      component is [option error] ([None] is the nil error).
    - A run-time panic is the [Panic] outcome, distinct from any returned
      error.
    - The HTTP transport and the JSON decoder are collaborators of the
      package: they are the fields of the class [Env]. *)

From Stdlib Require Import String Ascii List ZArith NArith Bool Lia.
From stdpp Require Import base option list strings pretty gmap.
Import ListNotations.

Local Open Scope Z_scope.

(** Let [simpl] compute the concatenation of a literal prefix. *)
#[local] Arguments String.append !_ _ : simpl nomatch.

(* ===================================================================== *)
(** ** Go run-time vocabulary *)
(* ===================================================================== *)

(** An [error] value. [errorString] is what [errors.New] and [fmt.Errorf]
    build; [foreignError] stands for an error produced by a collaborator
    (transport, body reader, JSON decoder) and handed back unchanged. *)
Inductive error : Type :=
| errorString (msg : string)
| foreignError (pkg : string) (msg : string).

(** [err.Error()] *)
Definition Error (e : error) : string :=
  match e with
  | errorString msg => msg
  | foreignError _ msg => msg
  end.

(** How a Go call ends: it returns, or it panics. *)
Inductive outcome (A : Type) : Type :=
| Return (a : A)
| Panic (msg : string).
Arguments Return {A} a.
Arguments Panic {A} msg.

Definition panicIndexOutOfRange : string :=
  "runtime error: index out of range [0] with length 0".
Definition panicNilDereference : string :=
  "runtime error: invalid memory address or nil pointer dereference".

(** *** [fmt.Sprintf], for the two verbs the package uses *)

Inductive fmtArg : Type :=
| ArgString (s : string)
| ArgInt (n : Z).

Definition formatVerb (verb : ascii) (a : fmtArg) : string :=
  match verb, a with
  | "s"%char, ArgString s => s
  | "d"%char, ArgInt n => pretty n
  | _, ArgString s => "%!" +:+ String verb ("(string=" +:+ s +:+ ")")
  | _, ArgInt n => "%!" +:+ String verb ("(int=" +:+ pretty n +:+ ")")
  end.

Fixpoint Sprintf (format : string) (args : list fmtArg) : string :=
  match format with
  | EmptyString => match args with
                   | [] => ""
                   | _ :: _ => "%!(EXTRA)"
                   end
  | String "%"%char (String verb rest) =>
      match args with
      | a :: args' => formatVerb verb a +:+ Sprintf rest args'
      | [] => "%!" +:+ String verb ("(MISSING)" +:+ Sprintf rest [])
      end
  | String c rest => String c (Sprintf rest args)
  end.

(** [fmt.Errorf] and [errors.New] *)
Definition Errorf (format : string) (args : list fmtArg) : error :=
  errorString (Sprintf format args).
Definition errorsNew (msg : string) : error := errorString msg.

(** [strings.Contains s substr] *)
Fixpoint Contains (s substr : string) : bool :=
  String.prefix substr s ||
  match s with
  | EmptyString => false
  | String _ s' => Contains s' substr
  end.

(* ===================================================================== *)
(** ** scopes.go: the scope catalogue *)
(* ===================================================================== *)

Definition ScopeOfflineAccess : string := "offline_access".
Definition ScopeOpenID : string := "openid".
Definition ScopeProfile : string := "profile".
Definition ScopeEmail : string := "email".
Definition ScopeAccountingTransactions : string := "accounting.transactions".
Definition ScopeAccountingTransactionsRead : string := "accounting.transactions.read".
Definition ScopeAccountingReportsRead : string := "accounting.reports.read".
Definition ScopeAccountingJournalsRead : string := "accounting.journals.read".
Definition ScopeAccountingSettings : string := "accounting.settings".
Definition ScopeAccountingSettingsRead : string := "accounting.settings.read".
Definition ScopeAccountingContacts : string := "accounting.contacts".
Definition ScopeAccountingContactsRead : string := "accounting.contacts.read".
Definition ScopeAccountingAttachments : string := "accounting.attachments".
Definition ScopeAccountingAttachmentsRead : string := "accounting.attachments".

(* ===================================================================== *)
(** ** Timestamps *)
(* ===================================================================== *)

(** The text after a leading [c], if the text begins with [c]. *)
Definition expect (c : ascii) (s : string) : option string :=
  match s with
  | String c' s' => if Ascii.eqb c c' then Some s' else None
  | EmptyString => None
  end.

(** [time.Time], as far as RFC 3339 can print it: a calendar instant in
    UTC with second resolution, years 0000 to 9999. The fields are kept
    valid by construction, so every [Time.t] has a printed form. *)
Module Time.

Record civil : Type := mkCivil {
  year : N; month : N; day : N;
  hour : N; minute : N; second : N
}.

Definition isLeap (y : N) : bool :=
  ((y mod 4 =? 0) && (negb (y mod 100 =? 0) || (y mod 400 =? 0)))%N.

Definition daysIn (y m : N) : N :=
  match m with
  | 1 | 3 | 5 | 7 | 8 | 10 | 12 => 31
  | 4 | 6 | 9 | 11 => 30
  | 2 => if isLeap y then 29 else 28
  | _ => 0
  end%N.

Definition valid (c : civil) : bool :=
  ((year c <=? 9999) &&
   (1 <=? month c) && (month c <=? 12) &&
   (1 <=? day c) && (day c <=? daysIn (year c) (month c)) &&
   (hour c <? 24) && (minute c <? 60) && (second c <? 60))%N.

Definition t : Type := { c : civil | Is_true (valid c) }.

(** The zero [time.Time]: January 1 of year 1, 00:00:00 UTC. *)
Definition zero : t := exist _ (mkCivil 1 1 1 0 0 0) I.

Definition IsZero (x : t) : bool :=
  let c := proj1_sig x in
  ((year c =? 1) && (month c =? 1) && (day c =? 1) &&
   (hour c =? 0) && (minute c =? 0) && (second c =? 0))%N.

(** Checked construction from calendar fields. *)
Definition ofCivil (c : civil) : option t :=
  match Is_true_dec (valid c) with
  | left ok => Some (exist _ c ok)
  | right _ => None
  end.

(** One decimal digit, and [width] digits of [n], most significant first. *)
Definition digitChar (d : N) : ascii :=
  match d with
  | 0 => "0" | 1 => "1" | 2 => "2" | 3 => "3" | 4 => "4"
  | 5 => "5" | 6 => "6" | 7 => "7" | 8 => "8" | _ => "9"
  end%char%N.

Definition digitValue (c : ascii) : option N :=
  let n := N_of_ascii c in
  if ((48 <=? n) && (n <=? 57))%N then Some (n - 48)%N else None.

Fixpoint digits (width : nat) (n : N) : string :=
  match width with
  | O => ""
  | S w => String (digitChar ((n / 10 ^ N.of_nat w) mod 10)%N) (digits w n)
  end.

Fixpoint readDigits (width : nat) (acc : N) (s : string) : option (N * string) :=
  match width with
  | O => Some (acc, s)
  | S w =>
      match s with
      | String c s' =>
          match digitValue c with
          | Some d => readDigits w (10 * acc + d)%N s'
          | None => None
          end
      | EmptyString => None
      end
  end.

(** Modelled from the spec: timestamps travel in RFC 3339. [format] prints
    the form [yyyy-mm-ddThh:mm:ssZ]; [parse] reads that form and checks
    the calendar fields. *)
Definition format (x : t) : string :=
  let c := proj1_sig x in
  digits 4 (year c) +:+ "-" +:+ digits 2 (month c) +:+ "-" +:+
  digits 2 (day c) +:+ "T" +:+ digits 2 (hour c) +:+ ":" +:+
  digits 2 (minute c) +:+ ":" +:+ digits 2 (second c) +:+ "Z".

Definition parse (s : string) : option t :=
  '(y, s) ← readDigits 4 0 s;
  s ← expect "-" s;
  '(m, s) ← readDigits 2 0 s;
  s ← expect "-" s;
  '(d, s) ← readDigits 2 0 s;
  s ← expect "T" s;
  '(h, s) ← readDigits 2 0 s;
  s ← expect ":" s;
  '(mi, s) ← readDigits 2 0 s;
  s ← expect ":" s;
  '(se, s) ← readDigits 2 0 s;
  s ← expect "Z" s;
  match s with
  | EmptyString => ofCivil (mkCivil y m d h mi se)
  | String _ _ => None
  end.

End Time.

(* ===================================================================== *)
(** ** The provider and its OAuth2 configuration *)
(* ===================================================================== *)

Definition providerName : string := "xero2".
Definition authURL : string := "https://login.xero.com/identity/connect/authorize".
Definition tokenURL : string := "https://identity.xero.com/connect/token".
Definition tenantsURL : string := "https://api.xero.com/connections".
Definition endpointProfile : string := "https://api.xero.com/api.xro/2.0/Organisation".

Definition defaultScopes : list string :=
  [ ScopeOpenID; ScopeProfile; ScopeEmail; ScopeOfflineAccess;
    ScopeAccountingSettingsRead ].

(** [oauth2.Endpoint] and [oauth2.Config], as far as [newConfig] fills them. *)
Module Endpoint.
Record t : Type := mk {
  AuthURL : string;
  TokenURL : string
}.
End Endpoint.

Module Config.
Record t : Type := mk {
  ClientID : string;
  ClientSecret : string;
  RedirectURL : string;
  Endpoint : Endpoint.t;
  Scopes : list string
}.

(** [c.Scopes = scopes] *)
Definition setScopes (c : t) (scopes : list string) : t :=
  mk (ClientID c) (ClientSecret c) (RedirectURL c) (Endpoint c) scopes.
End Config.

(** [Provider]. The [HTTPClient] field is the transport, which lives in
    [Env]; [config] is nil until [New] has filled it. *)
Module Provider.
Record t : Type := mk {
  ClientKey : string;
  Secret : string;
  CallbackURL : string;
  config : option Config.t;
  providerName : string;
  scopes : list string
}.

Definition setConfig (p : t) (c : option Config.t) : t :=
  mk (ClientKey p) (Secret p) (CallbackURL p) c (providerName p) (scopes p).

Definition setProviderName (p : t) (name : string) : t :=
  mk (ClientKey p) (Secret p) (CallbackURL p) (config p) name (scopes p).
End Provider.

(** The loop of [scopesToStrings]: slot [i] receives [scopes[i] + " "]. *)
Definition scopesToStrings (scopes : list string) : list string :=
  map (fun s => s +:+ " ") scopes.

Definition newConfig (p : Provider.t) (scopes : list string) : Config.t :=
  let c := {| Config.ClientID := Provider.ClientKey p;
              Config.ClientSecret := Provider.Secret p;
              Config.RedirectURL := Provider.CallbackURL p;
              Config.Endpoint := {| Endpoint.AuthURL := authURL;
                                    Endpoint.TokenURL := tokenURL |};
              Config.Scopes := [] |} in
  if 0 <? Z.of_nat (length scopes)
  then Config.setScopes c (Config.Scopes c ++ scopesToStrings scopes)
  else
    let ds := scopesToStrings defaultScopes in
    Config.setScopes c (Config.Scopes c ++ ds).

Definition New (clientKey secret callbackURL : string) (scopes : list string)
  : Provider.t :=
  let p := {| Provider.ClientKey := clientKey;
              Provider.Secret := secret;
              Provider.CallbackURL := callbackURL;
              Provider.config := None;
              Provider.providerName := providerName;
              Provider.scopes := scopes |} in
  Provider.setConfig p (Some (newConfig p scopes)).

(** [Name] and [SetName] *)
Definition Name (p : Provider.t) : string := Provider.providerName p.

Definition SetName (p : Provider.t) (name : string) : Provider.t :=
  Provider.setProviderName p name.

Definition RefreshTokenAvailable (p : Provider.t) : bool := true.

(* ===================================================================== *)
(** ** Data of the identity resolution *)
(* ===================================================================== *)

(** Modelled from the spec: the declaration of [Session] (session.go) is
    not among the sources. The fields are those [FetchUser] reads
    ([AccessToken], [RefreshToken], [ExpiresAt]), [AuthURL], and the
    provider-specific [Hostname] and [HMAC] that the serialised form shown
    by the specification and by [Test_ToJSON] carries. *)
Module Session.
Record t : Type := mk {
  AuthURL : string;
  AccessToken : string;
  RefreshToken : string;
  Hostname : string;
  HMAC : string;
  ExpiresAt : Time.t
}.

(** [&Session{}] *)
Definition zero : t := mk "" "" "" "" "" Time.zero.
End Session.

(** Modelled from the spec: the declaration of [goth.User] is not among
    the sources. The fields are those of the specification's
    IdentityRecord, which are also all the fields this package assigns. *)
Module User.
Record t (RawData : Type) : Type := mk {
  RawData_ : RawData;
  Provider : string;
  Name : string;
  NickName : string;
  UserID : string;
  AccessToken : string;
  RefreshToken : string;
  ExpiresAt : Time.t
}.
Arguments mk {RawData}.
Arguments RawData_ {RawData}.
Arguments Provider {RawData}.
Arguments Name {RawData}.
Arguments NickName {RawData}.
Arguments UserID {RawData}.
Arguments AccessToken {RawData}.
Arguments RefreshToken {RawData}.
Arguments ExpiresAt {RawData}.

Section Setters.
Context {RawData : Type}.
Implicit Type u : t RawData.

Definition setRawData u (r : RawData) : t RawData :=
  mk r (Provider u) (Name u) (NickName u) (UserID u)
     (AccessToken u) (RefreshToken u) (ExpiresAt u).
Definition setName u (s : string) : t RawData :=
  mk (RawData_ u) (Provider u) s (NickName u) (UserID u)
     (AccessToken u) (RefreshToken u) (ExpiresAt u).
Definition setNickName u (s : string) : t RawData :=
  mk (RawData_ u) (Provider u) (Name u) s (UserID u)
     (AccessToken u) (RefreshToken u) (ExpiresAt u).
Definition setUserID u (s : string) : t RawData :=
  mk (RawData_ u) (Provider u) (Name u) (NickName u) s
     (AccessToken u) (RefreshToken u) (ExpiresAt u).
End Setters.
End User.

Module XeroTenant.
Record t : Type := mk {
  ID : string;
  TenantID : string;
  TenantType : string
}.
End XeroTenant.

Module XeroOrganization.
Record t : Type := mk {
  Name : string;
  LegalName : string;
  OrganisationType : string;
  CountryCode : string;
  ShortCode : string
}.
End XeroOrganization.

(** The anonymous [struct { Organisations []XeroOrganization }] that
    [fetchTenantInformation] decodes the profile into. *)
Module ProfileView.
Record t : Type := mk {
  Organisations : list XeroOrganization.t
}.
Definition zero : t := mk [].
End ProfileView.

(* ===================================================================== *)
(** ** net/http, as the package uses it *)
(* ===================================================================== *)

Module Request.
Record t : Type := mk {
  Method : string;
  URL : string;
  Header : gmap string (list string)
}.

(** [req.Header.Set(key, value)]; both keys used here are already in
    canonical form. *)
Definition HeaderSet (req : t) (key value : string) : t :=
  mk (Method req) (URL req) (<[ key := [value] ]> (Header req)).

(** [req.Header.Get(key)] *)
Definition HeaderGet (req : t) (key : string) : string :=
  match Header req !! key with
  | Some (v :: _) => v
  | _ => ""
  end.
End Request.

(** [http.NewRequest(method, url, nil)]. It fails only on a method that is
    not a token or a URL that does not parse; neither can happen for "GET"
    and the constant endpoints, so the model always succeeds. *)
Definition NewRequest (method url : string) : Request.t * option error :=
  ({| Request.Method := method; Request.URL := url; Request.Header := ∅ |},
   None).

(** A response body: what [ioutil.ReadAll] returns for it. *)
Module Body.
Record t : Type := mk {
  bits : string;
  readError : option error
}.
End Body.

Module Response.
Record t : Type := mk {
  StatusCode : Z;
  Body : Body.t
}.
End Response.

Definition StatusOK : Z := 200.

Definition ReadAll (b : Body.t) : string * option error :=
  (Body.bits b, Body.readError b).

(** What a run does to the outside: requests handed to the client, and
    response bodies closed. *)
Inductive Event : Type :=
| EvDo (req : Request.t)
| EvClose (resp : Response.t).

(** The requests among the events of a run, in order. *)
Definition requestsOf (trace : list Event) : list Request.t :=
  omap (fun e => match e with EvDo r => Some r | EvClose _ => None end) trace.

(** The collaborators of the package.
    - [clientDo] is [p.Client().Do]: it answers a request in a state of
      the outside world, and moves that state. As in Go, it yields a
      response pointer and an error.
    - [decodeRawData], [decodeTenants] and [decodeProfile] are
      [json.NewDecoder(bytes.NewReader(bits)).Decode(&target)] at the three
      target types; each maps the bytes and the target's value before the
      call to the target's value after it and the error. *)
Class Env : Type := {
  World : Type;
  RawData : Type;
  nilRawData : RawData;
  clientDo : Request.t -> World -> (option Response.t * option error) * World;
  decodeRawData : string -> RawData -> RawData * option error;
  decodeTenants :
    string -> list (option XeroTenant.t) ->
    list (option XeroTenant.t) * option error;
  decodeProfile : string -> ProfileView.t -> ProfileView.t * option error
}.

(* ===================================================================== *)
(** ** The provider's calls, in the monad of runs *)
(* ===================================================================== *)

Section Runs.
Context `{env : Env}.

(** A computation that starts in a state of the world and ends with an
    outcome, a state of the world and the events it caused. *)
Definition M (A : Type) : Type := World -> outcome A * World * list Event.

Definition ret {A} (a : A) : M A := fun w => (Return a, w, []).

Definition bind {A B} (m : M A) (k : A -> M B) : M B := fun w =>
  match m w with
  | (Return a, w1, t1) =>
      match k a w1 with
      | (o, w2, t2) => (o, w2, t1 ++ t2)
      end
  | (Panic msg, w1, t1) => (Panic msg, w1, t1)
  end.

Definition panic {A} (msg : string) : M A := fun w => (Panic msg, w, []).

(** [defer d; body]: [d] runs when [body] is over, whether it returned
    or panicked. *)
Definition deferring {A} (d : M unit) (body : M A) : M A := fun w =>
  match body w with
  | (o, w1, t1) =>
      match d w1 with
      | (_, w2, t2) => (o, w2, t1 ++ t2)
      end
  end.

(** [p.Client().Do(req)] *)
Definition Do (req : Request.t) : M (option Response.t * option error) :=
  fun w => match clientDo req w with
           | (r, w1) => (Return r, w1, [EvDo req])
           end.

(** [resp.Body.Close()] *)
Definition Close (resp : Response.t) : M unit :=
  fun w => (Return tt, w, [EvClose resp]).

(** [s[i]] on a slice *)
Definition index {A} (s : list A) (i : nat) : M A :=
  match s !! i with
  | Some a => ret a
  | None => panic ("runtime error: index out of range [" +:+ pretty i +:+
                   "] with length " +:+ pretty (length s))
  end.

(** [ptr.field] on a pointer that may be nil *)
Definition deref {A} (ptr : option A) : M A :=
  match ptr with
  | Some a => ret a
  | None => panic panicNilDereference
  end.

End Runs.

Declare Scope run_scope.
Delimit Scope run_scope with run.
Notation "x <- m ;; k" := (bind m (fun x => k))
  (at level 100, m at next level, right associativity) : run_scope.
Notation "m ;;; k" := (bind m (fun _ => k))
  (at level 100, k at level 200, right associativity) : run_scope.

Section ProviderCalls.
Context `{env : Env}.
Local Open Scope run_scope.

Definition fetchAuthorizedTenants (p : Provider.t) (sess : Session.t)
  : M (list (option XeroTenant.t) * option error) :=
  match NewRequest "GET" tenantsURL with
  | (_, Some err) => ret ([], Some err)
  | (req, None) =>
      let req :=
        Request.HeaderSet req "Authorization"
          (Sprintf "Bearer %s" [ArgString (Session.AccessToken sess)]) in
      r <- Do req ;;
      let '(response, err) := r in
      match err with
      | Some err =>
          match response with
          | Some response => Close response
          | None => ret tt
          end ;;;
          ret ([], Some err)
      | None =>
          response <- deref response ;;
          deferring (Close response)
            (if negb (Response.StatusCode response =? StatusOK)
             then ret ([], Some (Errorf
                    "%s responded with a %d trying to fetch authorized xero tenants information"
                    [ArgString (Provider.providerName p);
                     ArgInt (Response.StatusCode response)]))
             else
               match ReadAll (Response.Body response) with
               | (_, Some err) => ret ([], Some err)
               | (bits, None) =>
                   match decodeTenants bits [] with
                   | (_, Some err) => ret ([], Some err)
                   | (tenants, None) => ret (tenants, None)
                   end
               end)
      end
  end.

Definition fetchTenantInformation (p : Provider.t) (user : User.t RawData)
    (sess : Session.t) (tenantID : string)
  : M (User.t RawData * option error) :=
  match NewRequest "GET" endpointProfile with
  | (_, Some err) => ret (user, Some err)
  | (req, None) =>
      let req :=
        Request.HeaderSet req "Authorization"
          (Sprintf "Bearer %s" [ArgString (Session.AccessToken sess)]) in
      let req := Request.HeaderSet req "Xero-Tenant-Id" tenantID in
      r <- Do req ;;
      let '(resp, err) := r in
      match err with
      | Some err =>
          match resp with
          | Some resp => Close resp
          | None => ret tt
          end ;;;
          ret (user, Some err)
      | None =>
          resp <- deref resp ;;
          deferring (Close resp)
            (if negb (Response.StatusCode resp =? StatusOK)
             then ret (user, Some (Errorf
                    "%s responded with a %d trying to fetch xero tenant information"
                    [ArgString (Provider.providerName p);
                     ArgInt (Response.StatusCode resp)]))
             else
               match ReadAll (Response.Body resp) with
               | (_, Some err) => ret (user, Some err)
               | (bits, None) =>
                   match decodeRawData bits (User.RawData_ user) with
                   | (raw, Some err) => ret (User.setRawData user raw, Some err)
                   | (raw, None) =>
                       let user := User.setRawData user raw in
                       match decodeProfile bits ProfileView.zero with
                       | (_, Some err) => ret (user, Some err)
                       | (u, None) =>
                           o <- index (ProfileView.Organisations u) 0 ;;
                           let user := User.setName user (XeroOrganization.Name o) in
                           o <- index (ProfileView.Organisations u) 0 ;;
                           let user := User.setNickName user (XeroOrganization.LegalName o) in
                           o <- index (ProfileView.Organisations u) 0 ;;
                           let user := User.setUserID user (XeroOrganization.ShortCode o) in
                           ret (user, None)
                       end
                   end
               end)
      end
  end.

(** [FetchUser]. The argument is the session behind the [goth.Session]
    interface value, which the code asserts to be a [*Session]. *)
Definition FetchUser (p : Provider.t) (session : Session.t)
  : M (User.t RawData * option error) :=
  let sess := session in
  let user := {| User.RawData_ := nilRawData;
                 User.Provider := Name p;
                 User.Name := "";
                 User.NickName := "";
                 User.UserID := "";
                 User.AccessToken := Session.AccessToken sess;
                 User.RefreshToken := Session.RefreshToken sess;
                 User.ExpiresAt := Session.ExpiresAt sess |} in
  if String.eqb (User.AccessToken user) ""
  then ret (user, Some (Errorf
         "%s cannot get organization information without accessToken"
         [ArgString (Provider.providerName p)]))
  else
    r <- fetchAuthorizedTenants p sess ;;
    let '(tenants, err) := r in
    match err with
    | Some err => ret (user, Some err)
    | None =>
        if (Z.of_nat (length tenants) =? 0)
        then ret (user, Some (errorsNew "No authorized xero tenants found"))
        else
          t0 <- index tenants 0 ;;
          t0 <- deref t0 ;;
          fetchTenantInformation p user sess (XeroTenant.TenantID t0)
    end.

End ProviderCalls.

(* ===================================================================== *)
(** ** The session and its serialisation *)
(* ===================================================================== *)

(** The double quote and the backslash; JSON text written with single
    quotes in place of double quotes. *)
Definition dquote : ascii := Ascii false true false false false true false false.
Definition backslash : ascii := "\"%char.

Fixpoint json (s : string) : string :=
  match s with
  | EmptyString => EmptyString
  | String c s' => String (if Ascii.eqb c "'" then dquote else c) (json s')
  end.

(** The error kinds of the session. *)
Inductive SessionError : Type :=
| ErrorNoAuthURL
| ErrorDeserialize.

Inductive result (A : Type) : Type :=
| Ok (a : A)
| Err (e : SessionError).
Arguments Ok {A} a.
Arguments Err {A} e.

(** Modelled from the spec: [GetAuthURL] of session.go, which is not among
    the sources: it fails with ErrorNoAuthURL when AuthURL is unset and
    returns it verbatim otherwise. *)
Definition GetAuthURL (s : Session.t) : result string :=
  if String.eqb (Session.AuthURL s) "" then Err ErrorNoAuthURL
  else Ok (Session.AuthURL s).

(** *** String literals *)

Definition hexDigit (n : N) : ascii :=
  match n with
  | 0 => "0" | 1 => "1" | 2 => "2" | 3 => "3" | 4 => "4" | 5 => "5"
  | 6 => "6" | 7 => "7" | 8 => "8" | 9 => "9" | 10 => "a" | 11 => "b"
  | 12 => "c" | 13 => "d" | 14 => "e" | _ => "f"
  end%char%N.

Definition hexValue (c : ascii) : option N :=
  let n := N_of_ascii c in
  if ((48 <=? n) && (n <=? 57))%N then Some (n - 48)%N
  else if ((97 <=? n) && (n <=? 102))%N then Some (n - 87)%N
  else if ((65 <=? n) && (n <=? 70))%N then Some (n - 55)%N
  else None.

Definition hex4 (a b c d : ascii) : option N :=
  a ← hexValue a; b ← hexValue b; c ← hexValue c; d ← hexValue d;
  Some (((a * 16 + b) * 16 + c) * 16 + d)%N.

(** The UTF-8 bytes of a code point below 65536. *)
Definition utf8 (n : N) : string :=
  if (n <? 128)%N then String (ascii_of_N n) ""
  else if (n <? 2048)%N
  then String (ascii_of_N (192 + n / 64))
         (String (ascii_of_N (128 + n mod 64)) "")
  else String (ascii_of_N (224 + n / 4096))
         (String (ascii_of_N (128 + (n / 64) mod 64))
            (String (ascii_of_N (128 + n mod 64)) "")).

(** Modelled from the spec: the string literals of the serialised session
    (session.go is not among the sources). Inside a literal the quote and
    the backslash are escaped with a backslash, control characters as
    [\u00XX]; every other character stands for itself. *)
Definition escapeChar (c : ascii) : string :=
  if Ascii.eqb c dquote then String backslash (String dquote "")
  else if Ascii.eqb c backslash then String backslash (String backslash "")
  else if (N_of_ascii c <? 32)%N
  then String backslash
         (String "u" (String "0" (String "0"
            (String (hexDigit (N_of_ascii c / 16))
               (String (hexDigit (N_of_ascii c mod 16)) "")))))
  else String c "".

Fixpoint escape (s : string) : string :=
  match s with
  | EmptyString => EmptyString
  | String c s' => escapeChar c +:+ escape s'
  end.

Definition jsonString (s : string) : string :=
  String dquote (escape s +:+ String dquote "").

Definition simpleEscape (e : ascii) : option ascii :=
  if Ascii.eqb e dquote then Some dquote
  else if Ascii.eqb e backslash then Some backslash
  else if Ascii.eqb e "/" then Some "/"%char
  else if Ascii.eqb e "b" then Some "008"%char
  else if Ascii.eqb e "f" then Some "012"%char
  else if Ascii.eqb e "n" then Some "010"%char
  else if Ascii.eqb e "r" then Some "013"%char
  else if Ascii.eqb e "t" then Some "009"%char
  else None.

(** Modelled from the spec: the reader of a string literal, for
    [Unmarshal]. The opening quote has been consumed; the result is the
    text the literal denotes and what follows its closing quote. *)
Fixpoint readString (s : string) : option (string * string) :=
  match s with
  | EmptyString => None
  | String c s1 =>
      if Ascii.eqb c dquote then Some (EmptyString, s1)
      else if Ascii.eqb c backslash then
        match s1 with
        | EmptyString => None
        | String e s2 =>
            if Ascii.eqb e "u" then
              match s2 with
              | String h1 (String h2 (String h3 (String h4 s3))) =>
                  match hex4 h1 h2 h3 h4, readString s3 with
                  | Some n, Some (text, rest) => Some (utf8 n +:+ text, rest)
                  | _, _ => None
                  end
              | _ => None
              end
            else
              match simpleEscape e, readString s2 with
              | Some ch, Some (text, rest) => Some (String ch text, rest)
              | _, _ => None
              end
        end
      else if (N_of_ascii c <? 32)%N then None
      else
        match readString s1 with
        | Some (text, rest) => Some (String c text, rest)
        | None => None
        end
  end.

Definition isSpace (c : ascii) : bool :=
  Ascii.eqb c " " || Ascii.eqb c "009" || Ascii.eqb c "010" || Ascii.eqb c "013".

Fixpoint skipSpace (s : string) : string :=
  match s with
  | String c s' => if isSpace c then skipSpace s' else s
  | EmptyString => EmptyString
  end.

(** A character that a literal carries as it is, and a text made of such
    characters. *)
Definition plainChar (c : ascii) : bool :=
  negb (Ascii.eqb c dquote) && negb (Ascii.eqb c backslash) &&
  negb (N_of_ascii c <? 32)%N.

Fixpoint plain (s : string) : bool :=
  match s with
  | EmptyString => true
  | String c s' => plainChar c && plain s'
  end.

(** *** Marshal and Unmarshal *)

Definition member (key value : string) : string :=
  jsonString key +:+ ":" +:+ value.

(** Modelled from the spec: [Marshal] of session.go, which is not among the
    sources. The text is a flat JSON object with every serialised field
    present, in the fixed order AuthURL, AccessToken, Hostname, HMAC,
    ExpiresAt (the object that the specification and [Test_ToJSON] show for
    the zero session), the timestamp in RFC 3339. *)
Definition Marshal (s : Session.t) : string :=
  "{" +:+ member "AuthURL" (jsonString (Session.AuthURL s)) +:+
  "," +:+ member "AccessToken" (jsonString (Session.AccessToken s)) +:+
  "," +:+ member "Hostname" (jsonString (Session.Hostname s)) +:+
  "," +:+ member "HMAC" (jsonString (Session.HMAC s)) +:+
  "," +:+ member "ExpiresAt"
            (String dquote (Time.format (Session.ExpiresAt s) +:+
             String dquote "")) +:+
  "}".

(** [String()] gives the same text as [Marshal]. *)
Definition SessionString (s : Session.t) : string := Marshal s.

(** The session that a serialised session denotes: the serialised fields,
    and the zero value for the RefreshToken, which is not serialised. *)
Definition serialisedFields (s : Session.t) : Session.t :=
  Session.mk (Session.AuthURL s) (Session.AccessToken s) ""
    (Session.Hostname s) (Session.HMAC s) (Session.ExpiresAt s).

(** The assignment of one decoded member to its field; a key that names no
    serialised field is passed over. *)
Definition setField (key value : string) (s : Session.t) : option Session.t :=
  if String.eqb key "AuthURL"
  then Some (Session.mk value (Session.AccessToken s) (Session.RefreshToken s)
               (Session.Hostname s) (Session.HMAC s) (Session.ExpiresAt s))
  else if String.eqb key "AccessToken"
  then Some (Session.mk (Session.AuthURL s) value (Session.RefreshToken s)
               (Session.Hostname s) (Session.HMAC s) (Session.ExpiresAt s))
  else if String.eqb key "Hostname"
  then Some (Session.mk (Session.AuthURL s) (Session.AccessToken s)
               (Session.RefreshToken s) value (Session.HMAC s)
               (Session.ExpiresAt s))
  else if String.eqb key "HMAC"
  then Some (Session.mk (Session.AuthURL s) (Session.AccessToken s)
               (Session.RefreshToken s) (Session.Hostname s) value
               (Session.ExpiresAt s))
  else if String.eqb key "ExpiresAt"
  then
    match Time.parse value with
    | Some t => Some (Session.mk (Session.AuthURL s) (Session.AccessToken s)
                        (Session.RefreshToken s) (Session.Hostname s)
                        (Session.HMAC s) t)
    | None => None
    end
  else Some s.

(** One member ["key" : "value"], from its opening quote: the key, the
    value and the text after the value, spaces skipped. *)
Definition readMember (s : string) : option (string * string * string) :=
  s ← expect dquote s;
  '(key, s) ← readString s;
  s ← expect ":" (skipSpace s);
  s ← expect dquote (skipSpace s);
  '(value, s) ← readString s;
  Some (key, value, skipSpace s).

(** The members of an object, up to and including its closing brace. What
    follows the brace is not looked at. [fuel] bounds the number of
    members. *)
Fixpoint readMembers (fuel : nat) (s : string) (acc : Session.t)
  : option Session.t :=
  match fuel with
  | O => None
  | S fuel' =>
      match readMember s with
      | Some (key, value, String c s') =>
          match setField key value acc with
          | Some acc' =>
              if Ascii.eqb c "," then readMembers fuel' (skipSpace s') acc'
              else if Ascii.eqb c "}" then Some acc'
              else None
          | None => None
          end
      | _ => None
      end
  end.

(** Modelled from the spec: [Unmarshal] of session.go, which is not among
    the sources. It reads the JSON object at the head of the text into a
    zero session and fails with ErrorDeserialize when there is none;
    characters after the closing brace are not read. A text has fewer
    members than characters, so its length is fuel enough. *)
Definition Unmarshal (text : string) : result Session.t :=
  match expect "{" (skipSpace text) with
  | Some s =>
      let s := skipSpace s in
      match expect "}" s with
      | Some _ => Ok Session.zero
      | None =>
          match readMembers (String.length text) s Session.zero with
          | Some sess => Ok sess
          | None => Err ErrorDeserialize
          end
      end
  | None => Err ErrorDeserialize
  end.

(* ===================================================================== *)
(** ** A scripted environment, for running the calls on concrete inputs *)
(* ===================================================================== *)

Module Scripted.

(** Documents the scripted decoder knows, and what they decode to. *)
Definition oneTenant : string :=
  json "[{'id':'c-1','tenantId':'t-1','tenantType':'ORGANISATION'}]".
Definition noTenants : string := "[]".
Definition nullTenant : string := "[null]".
Definition oneOrganisation : string :=
  json "{'Organisations':[{'Name':'Acme','LegalName':'Acme Ltd','ShortCode':'!aC3'}]}".
Definition noOrganisations : string := json "{'Organisations':[]}".

Definition syntaxError : error :=
  foreignError "encoding/json" "invalid character".

Definition tenantsDecoder (bits : string) (target : list (option XeroTenant.t))
  : list (option XeroTenant.t) * option error :=
  if String.eqb bits oneTenant
  then ([Some (XeroTenant.mk "c-1" "t-1" "ORGANISATION")], None)
  else if String.eqb bits noTenants then ([], None)
  else if String.eqb bits nullTenant then ([None], None)
  else (target, Some syntaxError).

Definition profileDecoder (bits : string) (target : ProfileView.t)
  : ProfileView.t * option error :=
  if String.eqb bits oneOrganisation
  then (ProfileView.mk [XeroOrganization.mk "Acme" "Acme Ltd" "" "" "!aC3"],
        None)
  else if String.eqb bits noOrganisations then (ProfileView.mk [], None)
  else (target, Some syntaxError).

(** The raw payload is kept as the text of the object. *)
Definition rawDecoder (bits : string) (target : string)
  : string * option error :=
  if String.eqb bits oneOrganisation || String.eqb bits noOrganisations
  then (bits, None)
  else (target, Some syntaxError).

(** The transport answers the two endpoints with fixed responses and
    counts the requests it has served. *)
Definition transport (tenants profile : Response.t) (req : Request.t)
    (served : nat) : (option Response.t * option error) * nat :=
  if String.eqb (Request.URL req) tenantsURL
  then ((Some tenants, None), S served)
  else if String.eqb (Request.URL req) endpointProfile
  then ((Some profile, None), S served)
  else ((None, Some (foreignError "net/http" "no such host")), S served).

Definition env (tenants profile : Response.t) : Env :=
  {| World := nat;
     RawData := string;
     nilRawData := "";
     clientDo := transport tenants profile;
     decodeRawData := rawDecoder;
     decodeTenants := tenantsDecoder;
     decodeProfile := profileDecoder |}.

Definition ok (bits : string) : Response.t :=
  {| Response.StatusCode := 200;
     Response.Body := {| Body.bits := bits; Body.readError := None |} |}.

Definition status (code : Z) : Response.t :=
  {| Response.StatusCode := code;
     Response.Body := {| Body.bits := ""; Body.readError := None |} |}.

Definition session : Session.t :=
  {| Session.AuthURL := authURL;
     Session.AccessToken := "1234567890";
     Session.RefreshToken := "r-1";
     Session.Hostname := "";
     Session.HMAC := "";
     Session.ExpiresAt := Time.zero |}.

Definition freshSession : Session.t := Session.zero.

Definition provider : Provider.t := New "key" "secret" "/foo" [].

Definition tenant : XeroTenant.t := XeroTenant.mk "c-1" "t-1" "ORGANISATION".
Definition organisation : XeroOrganization.t :=
  XeroOrganization.mk "Acme" "Acme Ltd" "" "" "!aC3".

End Scripted.

(* ===================================================================== *)
(** ** Vocabulary of the specification *)
(* ===================================================================== *)

(** The error kinds the specification names, as the values the code builds
    for them. *)
Definition ErrorNoAccessToken (provider : string) : error :=
  errorString
    (provider +:+ " cannot get organization information without accessToken").

Definition ErrorNoAuthorizedTenants : error :=
  errorString "No authorized xero tenants found".

Definition ErrorUpstreamStatusTenants (provider : string) (code : Z) : error :=
  errorString
    (provider +:+ " responded with a " +:+ pretty code +:+
     " trying to fetch authorized xero tenants information").

Definition ErrorUpstreamStatusProfile (provider : string) (code : Z) : error :=
  errorString
    (provider +:+ " responded with a " +:+ pretty code +:+
     " trying to fetch xero tenant information").

(** The two requests of the resolution protocol. *)
Definition bearer (sess : Session.t) : string :=
  "Bearer " +:+ Session.AccessToken sess.

Definition tenantsRequest (sess : Session.t) : Request.t :=
  {| Request.Method := "GET";
     Request.URL := tenantsURL;
     Request.Header := {[ "Authorization" := [bearer sess] ]} |}.

Definition profileRequest (sess : Session.t) (tenantID : string) : Request.t :=
  {| Request.Method := "GET";
     Request.URL := endpointProfile;
     Request.Header :=
       <[ "Xero-Tenant-Id" := [tenantID] ]>
         {[ "Authorization" := [bearer sess] ]} |}.



(* ===================================================================== *)
(** ** The rest of the provider, and vocabulary for its runs *)
(* ===================================================================== *)

Section Authorization.
(** [AuthCodeURL], the method of [oauth2.Config] in the OAuth2 client
    library. *)
Variable AuthCodeURL : Config.t -> string -> string.

(** [BeginAuth]: a session that holds the authorization URL and nothing
    else, with a nil error. The call goes through [p.config], which is nil
    in a provider that [New] did not build. *)
Definition BeginAuth (p : Provider.t) (state : string)
  : outcome (Session.t * option error) :=
  match Provider.config p with
  | Some c =>
      Return ({| Session.AuthURL := AuthCodeURL c state;
                 Session.AccessToken := "";
                 Session.RefreshToken := "";
                 Session.Hostname := "";
                 Session.HMAC := "";
                 Session.ExpiresAt := Time.zero |}, None)
  | None => Panic panicNilDereference
  end.

End Authorization.

(** The scope constants of scopes.go, in the order of the file. *)
Definition scopeCatalogue : list string :=
  [ ScopeOfflineAccess; ScopeOpenID; ScopeProfile; ScopeEmail;
    ScopeAccountingTransactions; ScopeAccountingTransactionsRead;
    ScopeAccountingReportsRead; ScopeAccountingJournalsRead;
    ScopeAccountingSettings; ScopeAccountingSettingsRead;
    ScopeAccountingContacts; ScopeAccountingContactsRead;
    ScopeAccountingAttachments; ScopeAccountingAttachmentsRead ].

(** [strings.HasSuffix s suffix] *)
Definition HasSuffix (s suffix : string) : bool :=
  (String.length suffix <=? String.length s)%nat &&
  String.eqb
    (String.substring (String.length s - String.length suffix)
       (String.length suffix) s)
    suffix.

(** The response bodies closed during a run, in order. *)
Definition closedOf (trace : list Event) : list Response.t :=
  omap (fun e => match e with EvClose r => Some r | EvDo _ => None end) trace.

(** The events of one exchange: the request, then the closing of the
    response body when the client gave a response. *)
Definition exchange (req : Request.t) (answer : option Response.t * option error)
  : list Event :=
  EvDo req :: match answer.1 with
              | Some resp => [EvClose resp]
              | None => []
              end.

Section RunVocabulary.
Context `{env : Env}.

(** The record [FetchUser] starts from: the session's tokens and expiry and
    the provider's name, no identity, no raw payload. *)
Definition sessionRecord (p : Provider.t) (sess : Session.t) : User.t RawData :=
  {| User.RawData_ := nilRawData;
     User.Provider := Name p;
     User.Name := "";
     User.NickName := "";
     User.UserID := "";
     User.AccessToken := Session.AccessToken sess;
     User.RefreshToken := Session.RefreshToken sess;
     User.ExpiresAt := Session.ExpiresAt sess |}.

(** What the client answers to a sequence of requests sent one after the
    other from a state of the world, and the state it leaves. *)
Fixpoint answersTo (reqs : list Request.t) (w : World)
  : list (option Response.t * option error) * World :=
  match reqs with
  | [] => ([], w)
  | req :: reqs' =>
      match clientDo req w with
      | (answer, w1) =>
          match answersTo reqs' w1 with
          | (answers, w2) => (answer :: answers, w2)
          end
      end
  end.

End RunVocabulary.

(** A second scripted environment: the transport gives a fixed answer per
    endpoint, which may be an error; the decoders know a few more
    documents. *)
Module Scripted2.

Definition badOrganisations : string := json "{'Organisations':5}".
Definition notJSON : string := "<html>".

Definition typeError : error :=
  foreignError "encoding/json" "cannot unmarshal number into Go value".

Definition rawDecoder (bits : string) (target : string) : string * option error :=
  if String.eqb bits Scripted.oneOrganisation
     || String.eqb bits Scripted.noOrganisations
     || String.eqb bits badOrganisations
  then (bits, None)
  else (target, Some Scripted.syntaxError).

Definition profileDecoder (bits : string) (target : ProfileView.t)
  : ProfileView.t * option error :=
  if String.eqb bits badOrganisations then (target, Some typeError)
  else Scripted.profileDecoder bits target.

Definition transport (tenants profile : option Response.t * option error)
    (req : Request.t) (served : nat)
  : (option Response.t * option error) * nat :=
  if String.eqb (Request.URL req) tenantsURL then (tenants, S served)
  else if String.eqb (Request.URL req) endpointProfile then (profile, S served)
  else ((None, Some (foreignError "net/http" "no such host")), S served).

Definition env (tenants profile : option Response.t * option error) : Env :=
  {| World := nat;
     RawData := string;
     nilRawData := "";
     clientDo := transport tenants profile;
     decodeRawData := rawDecoder;
     decodeTenants := Scripted.tenantsDecoder;
     decodeProfile := profileDecoder |}.

Definition answer (resp : Response.t) : option Response.t * option error :=
  (Some resp, None).

Definition timeout : error := foreignError "net/http" "context deadline exceeded".

Definition failure : option Response.t * option error := (None, Some timeout).

Definition unreadable : Response.t :=
  {| Response.StatusCode := 200;
     Response.Body := {| Body.bits := "";
                         Body.readError := Some (foreignError "io" "unexpected EOF") |} |}.

End Scripted2.

(* ===================================================================== *)
(** ** Properties *)
(* ===================================================================== *)

(** C7. A provider built by [New] with no scopes has, as the scope list of
    its OAuth2 configuration, the five default scopes openid, profile,
    email, offline_access and accounting.settings.read, in this order, each
    followed by exactly one space. *)
Theorem New_default_scopes :
  forall clientKey secret callbackURL : string,
    Config.Scopes <$> Provider.config (New clientKey secret callbackURL []) =
    Some [ "openid "; "profile "; "email "; "offline_access ";
           "accounting.settings.read " ] /\
    Config.Scopes <$> Provider.config (New clientKey secret callbackURL []) =
    Some (map (fun scope => scope +:+ " ")
            [ ScopeOpenID; ScopeProfile; ScopeEmail; ScopeOfflineAccess;
              ScopeAccountingSettingsRead ]).
Proof. intros. split; reflexivity. Qed.


(* --------------------------------------------------------------------- *)
(** *** Strings and formatting *)

Lemma append_empty_r (s : string) : s +:+ "" = s.
Proof. induction s as [|c s IH]; simpl; [reflexivity | now rewrite IH]. Qed.

Lemma append_assoc (a b c : string) : (a +:+ b) +:+ c = a +:+ (b +:+ c).
Proof. induction a as [|x a IH]; simpl; [reflexivity | now rewrite IH]. Qed.

Lemma prefix_append (n rest : string) : String.prefix n (n +:+ rest) = true.
Proof.
  induction n as [|c n IH]; simpl.
  - now destruct rest.
  - destruct (ascii_dec c c) as [_|ne]; [exact IH | now destruct ne].
Qed.

Lemma Contains_unfold (s substr : string) :
  Contains s substr =
  String.prefix substr s ||
  match s with
  | EmptyString => false
  | String _ s' => Contains s' substr
  end.
Proof. destruct s; reflexivity. Qed.

Lemma Contains_prefix (n rest : string) : Contains (n +:+ rest) n = true.
Proof. now rewrite Contains_unfold, prefix_append. Qed.

Lemma Sprintf_bearer (token : string) :
  Sprintf "Bearer %s" [ArgString token] = "Bearer " +:+ token.
Proof. simpl. now rewrite append_empty_r. Qed.

Lemma Errorf_no_access_token (name : string) :
  Errorf "%s cannot get organization information without accessToken"
         [ArgString name] = ErrorNoAccessToken name.
Proof. reflexivity. Qed.

Lemma Errorf_status_tenants (name : string) (code : Z) :
  Errorf "%s responded with a %d trying to fetch authorized xero tenants information"
         [ArgString name; ArgInt code] = ErrorUpstreamStatusTenants name code.
Proof. reflexivity. Qed.

Lemma Errorf_status_profile (name : string) (code : Z) :
  Errorf "%s responded with a %d trying to fetch xero tenant information"
         [ArgString name; ArgInt code] = ErrorUpstreamStatusProfile name code.
Proof. reflexivity. Qed.

Lemma Name_SetName (p : Provider.t) (name : string) : Name (SetName p name) = name.
Proof. reflexivity. Qed.

(* --------------------------------------------------------------------- *)
(** *** The requests the two calls build *)

Lemma tenants_request_built (sess : Session.t) :
  Request.HeaderSet (NewRequest "GET" tenantsURL).1 "Authorization"
    (Sprintf "Bearer %s" [ArgString (Session.AccessToken sess)])
  = tenantsRequest sess.
Proof.
  rewrite Sprintf_bearer.
  unfold Request.HeaderSet, NewRequest, tenantsRequest, bearer.
  cbn [fst Request.Header Request.Method Request.URL].
  now rewrite insert_empty.
Qed.

Lemma profile_request_built (sess : Session.t) (tenantID : string) :
  Request.HeaderSet
    (Request.HeaderSet (NewRequest "GET" endpointProfile).1 "Authorization"
       (Sprintf "Bearer %s" [ArgString (Session.AccessToken sess)]))
    "Xero-Tenant-Id" tenantID
  = profileRequest sess tenantID.
Proof.
  rewrite Sprintf_bearer.
  unfold Request.HeaderSet, NewRequest, profileRequest, bearer.
  cbn [fst Request.Header Request.Method Request.URL].
  now rewrite insert_empty.
Qed.

Lemma tenantsRequest_bearer (sess : Session.t) :
  Request.HeaderGet (tenantsRequest sess) "Authorization" = bearer sess.
Proof.
  unfold Request.HeaderGet, tenantsRequest. simpl.
  now rewrite lookup_singleton_eq.
Qed.

Lemma profileRequest_bearer (sess : Session.t) (tenantID : string) :
  Request.HeaderGet (profileRequest sess tenantID) "Authorization" = bearer sess.
Proof.
  unfold Request.HeaderGet, profileRequest. simpl.
  rewrite lookup_insert_ne by done.
  now rewrite lookup_singleton_eq.
Qed.

Lemma profileRequest_tenant (sess : Session.t) (tenantID : string) :
  Request.HeaderGet (profileRequest sess tenantID) "Xero-Tenant-Id" = tenantID.
Proof.
  unfold Request.HeaderGet, profileRequest. simpl.
  now rewrite lookup_insert_eq.
Qed.

(* --------------------------------------------------------------------- *)
(** *** Runs of the two calls *)

Section RunsOfTheCalls.
Context `{env : Env}.
Implicit Types (p : Provider.t) (sess : Session.t) (w : World).

(** The run of [fetchAuthorizedTenants], by what the client answers. *)
Lemma fetchAuthorizedTenants_run p sess w :
  fetchAuthorizedTenants p sess w =
  match clientDo (tenantsRequest sess) w with
  | ((Some response, Some err), w1) =>
      (Return ([], Some err), w1,
       [EvDo (tenantsRequest sess); EvClose response])
  | ((None, Some err), w1) =>
      (Return ([], Some err), w1, [EvDo (tenantsRequest sess)])
  | ((None, None), w1) =>
      (Panic panicNilDereference, w1, [EvDo (tenantsRequest sess)])
  | ((Some response, None), w1) =>
      (Return
         (if negb (Response.StatusCode response =? StatusOK)
          then ([], Some (ErrorUpstreamStatusTenants
                            (Provider.providerName p)
                            (Response.StatusCode response)))
          else
            match Body.readError (Response.Body response) with
            | Some err => ([], Some err)
            | None =>
                match decodeTenants (Body.bits (Response.Body response)) []
                with
                | (_, Some err) => ([], Some err)
                | (tenants, None) => (tenants, None)
                end
            end),
       w1, [EvDo (tenantsRequest sess); EvClose response])
  end.
Proof.
  unfold fetchAuthorizedTenants.
  change (NewRequest "GET" tenantsURL)
    with ((NewRequest "GET" tenantsURL).1, @None error).
  cbv beta iota. rewrite tenants_request_built.
  unfold bind, Do, deferring, Close, deref, ret, panic, ReadAll.
  destruct (clientDo (tenantsRequest sess) w) as [[[response|] [err|]] w1];
    try reflexivity.
  rewrite <- Errorf_status_tenants.
  destruct (negb (Response.StatusCode response =? StatusOK)); [reflexivity|].
  destruct (Body.readError (Response.Body response)); [reflexivity|].
  destruct (decodeTenants _ _) as [tenants [err|]]; reflexivity.
Qed.

(** The run of [fetchTenantInformation], by what the client answers. *)
Lemma fetchTenantInformation_run p (user : User.t RawData) sess tenantID w :
  fetchTenantInformation p user sess tenantID w =
  match clientDo (profileRequest sess tenantID) w with
  | ((Some resp, Some err), w1) =>
      (Return (user, Some err), w1,
       [EvDo (profileRequest sess tenantID); EvClose resp])
  | ((None, Some err), w1) =>
      (Return (user, Some err), w1, [EvDo (profileRequest sess tenantID)])
  | ((None, None), w1) =>
      (Panic panicNilDereference, w1, [EvDo (profileRequest sess tenantID)])
  | ((Some resp, None), w1) =>
      (if negb (Response.StatusCode resp =? StatusOK)
       then Return (user, Some (ErrorUpstreamStatusProfile
                                  (Provider.providerName p)
                                  (Response.StatusCode resp)))
       else
         match Body.readError (Response.Body resp) with
         | Some err => Return (user, Some err)
         | None =>
             let bits := Body.bits (Response.Body resp) in
             match decodeRawData bits (User.RawData_ user) with
             | (raw, Some err) => Return (User.setRawData user raw, Some err)
             | (raw, None) =>
                 match decodeProfile bits ProfileView.zero with
                 | (_, Some err) => Return (User.setRawData user raw, Some err)
                 | (u, None) =>
                     match ProfileView.Organisations u with
                     | [] => Panic panicIndexOutOfRange
                     | o :: _ =>
                         Return
                           (User.setUserID
                              (User.setNickName
                                 (User.setName (User.setRawData user raw)
                                    (XeroOrganization.Name o))
                                 (XeroOrganization.LegalName o))
                              (XeroOrganization.ShortCode o),
                            None)
                     end
                 end
             end
         end,
       w1, [EvDo (profileRequest sess tenantID); EvClose resp])
  end.
Proof.
  unfold fetchTenantInformation.
  change (NewRequest "GET" endpointProfile)
    with ((NewRequest "GET" endpointProfile).1, @None error).
  cbv beta iota zeta. rewrite profile_request_built.
  unfold bind, Do, deferring, Close, deref, ret, panic, ReadAll.
  destruct (clientDo (profileRequest sess tenantID) w)
    as [[[resp|] [err|]] w1]; try reflexivity.
  rewrite <- Errorf_status_profile.
  destruct (negb (Response.StatusCode resp =? StatusOK)); [reflexivity|].
  destruct (Body.readError (Response.Body resp)); [reflexivity|].
  destruct (decodeRawData _ _) as [raw [err|]]; [reflexivity|].
  destruct (decodeProfile _ _) as [u [err|]]; [reflexivity|].
  destruct (ProfileView.Organisations u) as [|o os]; reflexivity.
Qed.

(** The run of [FetchUser] up to the profile call. *)
Lemma FetchUser_run p sess w :
  FetchUser p sess w =
  let user := {| User.RawData_ := nilRawData;
                 User.Provider := Name p;
                 User.Name := "";
                 User.NickName := "";
                 User.UserID := "";
                 User.AccessToken := Session.AccessToken sess;
                 User.RefreshToken := Session.RefreshToken sess;
                 User.ExpiresAt := Session.ExpiresAt sess |} in
  if String.eqb (Session.AccessToken sess) ""
  then (Return (user, Some (ErrorNoAccessToken (Provider.providerName p))),
        w, [])
  else
    match fetchAuthorizedTenants p sess w with
    | (Panic msg, w1, t1) => (Panic msg, w1, t1)
    | (Return (tenants, err), w1, t1) =>
        match err with
        | Some err => (Return (user, Some err), w1, t1)
        | None =>
            match tenants with
            | [] => (Return (user, Some ErrorNoAuthorizedTenants), w1, t1)
            | None :: _ => (Panic panicNilDereference, w1, t1)
            | Some t0 :: _ =>
                match fetchTenantInformation p user sess
                        (XeroTenant.TenantID t0) w1
                with
                | (o, w2, t2) => (o, w2, t1 ++ t2)
                end
            end
        end
    end.
Proof.
  unfold FetchUser. cbv zeta. cbn [User.AccessToken].
  destruct (String.eqb (Session.AccessToken sess) ""); [reflexivity|].
  unfold bind at 1.
  destruct (fetchAuthorizedTenants p sess w) as [[[[tenants [err|]]|msg] w1] t1];
    [ unfold ret; now rewrite app_nil_r | | reflexivity ].
  destruct tenants as [|[t0|] tenants]; simpl (Z.of_nat _ =? 0).
  - unfold ret. now rewrite app_nil_r.
  - unfold bind, index, deref, ret. simpl.
    now destruct (fetchTenantInformation _ _ _ _ _) as [[o w2] t2].
  - unfold bind, index, deref, ret, panic. simpl. now rewrite app_nil_r.
Qed.

End RunsOfTheCalls.

(* --------------------------------------------------------------------- *)
(** *** FetchUser *)

Section FetchUserProperties.
Context `{env : Env}.
Implicit Types (p : Provider.t) (sess : Session.t) (w : World).



(** A tenant list whose first entry is a nil pointer makes [FetchUser]
    panic on [tenants[0].TenantID], before any profile request. *)
Lemma FetchUser_nil_tenant_panics p sess w response w1 tenants :
  Session.AccessToken sess <> "" ->
  clientDo (tenantsRequest sess) w = ((Some response, None), w1) ->
  Response.StatusCode response = StatusOK ->
  Body.readError (Response.Body response) = None ->
  decodeTenants (Body.bits (Response.Body response)) []
    = (None :: tenants, None) ->
  FetchUser p sess w =
    (Panic panicNilDereference, w1,
     [EvDo (tenantsRequest sess); EvClose response]).
Proof.
  intros Htoken Hdo Hstatus Hread Hdecode.
  rewrite FetchUser_run. cbv zeta.
  apply String.eqb_neq in Htoken. rewrite Htoken.
  rewrite fetchAuthorizedTenants_run, Hdo, Hstatus, Hread, Hdecode.
  reflexivity.
Qed.

(** An empty organisations list makes [FetchUser] panic on
    [u.Organisations[0]]: nothing is returned, neither a record nor an
    error. *)
Lemma FetchUser_no_organisations_panics p sess w response w1 t0 tenants
    resp w2 raw u :
  Session.AccessToken sess <> "" ->
  clientDo (tenantsRequest sess) w = ((Some response, None), w1) ->
  Response.StatusCode response = StatusOK ->
  Body.readError (Response.Body response) = None ->
  decodeTenants (Body.bits (Response.Body response)) []
    = (Some t0 :: tenants, None) ->
  clientDo (profileRequest sess (XeroTenant.TenantID t0)) w1
    = ((Some resp, None), w2) ->
  Response.StatusCode resp = StatusOK ->
  Body.readError (Response.Body resp) = None ->
  decodeRawData (Body.bits (Response.Body resp)) nilRawData = (raw, None) ->
  decodeProfile (Body.bits (Response.Body resp)) ProfileView.zero
    = (u, None) ->
  ProfileView.Organisations u = [] ->
  FetchUser p sess w =
    (Panic panicIndexOutOfRange, w2,
     [EvDo (tenantsRequest sess); EvClose response;
      EvDo (profileRequest sess (XeroTenant.TenantID t0)); EvClose resp]).
Proof.
  intros Htoken Hdo Hstatus Hread Hdecode Hdo2 Hstatus2 Hread2 Hraw Hprofile
    Horgs.
  rewrite FetchUser_run. cbv zeta.
  apply String.eqb_neq in Htoken. rewrite Htoken.
  rewrite fetchAuthorizedTenants_run, Hdo, Hstatus, Hread, Hdecode.
  cbn [negb Z.eqb StatusOK Pos.eqb].
  rewrite fetchTenantInformation_run, Hdo2, Hstatus2, Hread2.
  cbn [negb Z.eqb StatusOK Pos.eqb User.RawData_].
  cbv zeta. rewrite Hraw, Hprofile, Horgs. reflexivity.
Qed.

End FetchUserProperties.

Section FetchUserClaims.
Context `{env : Env}.
Implicit Types (p : Provider.t) (sess : Session.t) (w : World).

(** C3. For a session whose access token is the empty string, [FetchUser]
    returns the NoAccessToken error, causes no event at all (so neither
    the tenant-discovery nor the profile request is made) and leaves the
    outside world as it was. *)
Theorem FetchUser_no_access_token p sess w :
  Session.AccessToken sess = "" ->
  exists user : User.t RawData,
    FetchUser p sess w
      = (Return (user, Some (ErrorNoAccessToken (Name p))), w, []).
Proof.
  intros Htoken. rewrite FetchUser_run. cbv zeta. rewrite Htoken.
  eexists. reflexivity.
Qed.

(** C4. When the tenant-discovery call succeeds (status 200, body read)
    and its body decodes to the empty tenant list, [FetchUser] returns the
    NoAuthorizedTenants error, and the only request of the run is the
    tenant-discovery one: no request goes to the profile endpoint. *)
Theorem FetchUser_no_authorized_tenants p sess w response w1 :
  Session.AccessToken sess <> "" ->
  clientDo (tenantsRequest sess) w = ((Some response, None), w1) ->
  Response.StatusCode response = StatusOK ->
  Body.readError (Response.Body response) = None ->
  decodeTenants (Body.bits (Response.Body response)) [] = ([], None) ->
  exists (user : User.t RawData) (trace : list Event),
    FetchUser p sess w
      = (Return (user, Some ErrorNoAuthorizedTenants), w1, trace) /\
    requestsOf trace = [tenantsRequest sess] /\
    Forall (fun r => Request.URL r <> endpointProfile) (requestsOf trace).
Proof.
  intros Htoken Hdo Hstatus Hread Hdecode.
  rewrite FetchUser_run. cbv zeta.
  apply String.eqb_neq in Htoken. rewrite Htoken.
  rewrite fetchAuthorizedTenants_run, Hdo, Hstatus, Hread, Hdecode.
  do 2 eexists. split; [reflexivity|]. split; [reflexivity|].
  repeat constructor. discriminate.
Qed.


(** C2. When both calls answer 200 with readable bodies, the first one
    decoding to a tenant list headed by [t0] and the profile body
    decoding (raw payload and typed view) to a non-empty organisations
    list headed by [o], [FetchUser] returns an identity record without
    error whose Name, NickName and UserID are [o]'s Name, LegalName and
    ShortCode. *)
Theorem FetchUser_first_organisation p sess w response w1 t0 tenants
    resp w2 raw u o orgs :
  Session.AccessToken sess <> "" ->
  clientDo (tenantsRequest sess) w = ((Some response, None), w1) ->
  Response.StatusCode response = StatusOK ->
  Body.readError (Response.Body response) = None ->
  decodeTenants (Body.bits (Response.Body response)) []
    = (Some t0 :: tenants, None) ->
  clientDo (profileRequest sess (XeroTenant.TenantID t0)) w1
    = ((Some resp, None), w2) ->
  Response.StatusCode resp = StatusOK ->
  Body.readError (Response.Body resp) = None ->
  decodeRawData (Body.bits (Response.Body resp)) nilRawData = (raw, None) ->
  decodeProfile (Body.bits (Response.Body resp)) ProfileView.zero
    = (u, None) ->
  ProfileView.Organisations u = o :: orgs ->
  exists (user : User.t RawData) (trace : list Event),
    FetchUser p sess w = (Return (user, None), w2, trace) /\
    User.Name user = XeroOrganization.Name o /\
    User.NickName user = XeroOrganization.LegalName o /\
    User.UserID user = XeroOrganization.ShortCode o.
Proof.
  intros Htoken Hdo Hstatus Hread Hdecode Hdo2 Hstatus2 Hread2 Hraw Hprofile
    Horgs.
  rewrite FetchUser_run. cbv zeta.
  apply String.eqb_neq in Htoken. rewrite Htoken.
  rewrite fetchAuthorizedTenants_run, Hdo, Hstatus, Hread, Hdecode.
  cbn [negb Z.eqb StatusOK Pos.eqb].
  rewrite fetchTenantInformation_run, Hdo2, Hstatus2, Hread2.
  cbn [negb Z.eqb StatusOK Pos.eqb User.RawData_].
  cbv zeta. rewrite Hraw, Hprofile, Horgs.
  do 2 eexists. repeat split; reflexivity.
Qed.


End FetchUserClaims.

(* --------------------------------------------------------------------- *)
(** *** The claims on concrete runs *)

Lemma FetchUser_no_access_token_witness :
  exists user : User.t string,
    @FetchUser (Scripted.env (Scripted.ok Scripted.oneTenant)
                             (Scripted.ok Scripted.oneOrganisation))
      Scripted.provider Scripted.freshSession 0%nat
    = (Return (user, Some (ErrorNoAccessToken "xero2")), 0%nat, []).
Proof.
  apply (@FetchUser_no_access_token
           (Scripted.env (Scripted.ok Scripted.oneTenant)
                         (Scripted.ok Scripted.oneOrganisation))
           Scripted.provider Scripted.freshSession 0%nat).
  reflexivity.
Defined.

Lemma FetchUser_no_authorized_tenants_witness :
  exists (user : User.t string) (trace : list Event),
    @FetchUser (Scripted.env (Scripted.ok Scripted.noTenants)
                             (Scripted.ok Scripted.oneOrganisation))
      Scripted.provider Scripted.session 0%nat
    = (Return (user, Some ErrorNoAuthorizedTenants), 1%nat, trace) /\
    requestsOf trace = [tenantsRequest Scripted.session] /\
    Forall (fun r => Request.URL r <> endpointProfile) (requestsOf trace).
Proof.
  apply (@FetchUser_no_authorized_tenants
           (Scripted.env (Scripted.ok Scripted.noTenants)
                         (Scripted.ok Scripted.oneOrganisation))
           Scripted.provider Scripted.session 0%nat
           (Scripted.ok Scripted.noTenants) 1%nat).
  - discriminate.
  - reflexivity.
  - reflexivity.
  - reflexivity.
  - reflexivity.
Defined.


Lemma FetchUser_first_organisation_witness :
  exists (user : User.t string) (trace : list Event),
    @FetchUser (Scripted.env (Scripted.ok Scripted.oneTenant)
                             (Scripted.ok Scripted.oneOrganisation))
      Scripted.provider Scripted.session 0%nat
    = (Return (user, None), 2%nat, trace) /\
    User.Name user = "Acme" /\
    User.NickName user = "Acme Ltd" /\
    User.UserID user = "!aC3".
Proof.
  apply (@FetchUser_first_organisation
           (Scripted.env (Scripted.ok Scripted.oneTenant)
                         (Scripted.ok Scripted.oneOrganisation))
           Scripted.provider Scripted.session 0%nat
           (Scripted.ok Scripted.oneTenant) 1%nat Scripted.tenant []
           (Scripted.ok Scripted.oneOrganisation) 2%nat
           Scripted.oneOrganisation
           (ProfileView.mk [Scripted.organisation])
           Scripted.organisation []).
  - discriminate.
  - reflexivity.
  - reflexivity.
  - reflexivity.
  - reflexivity.
  - reflexivity.
  - reflexivity.
  - reflexivity.
  - reflexivity.
  - reflexivity.
  - reflexivity.
Defined.


(* --------------------------------------------------------------------- *)
(** *** Where the code departs from the specification *)

(** The three errors built with [fmt.Errorf] begin with the provider's
    name. *)
Lemma formatted_errors_name_provider (name : string) (code : Z) :
  Contains (Error (ErrorNoAccessToken name)) name = true /\
  Contains (Error (ErrorUpstreamStatusTenants name code)) name = true /\
  Contains (Error (ErrorUpstreamStatusProfile name code)) name = true.
Proof. repeat split; apply Contains_prefix. Qed.

(** C1. On the run where tenant discovery answers one tenant and the
    profile answers 200 with the body [{"Organisations":[]}], the decoded
    organisations list is empty and [FetchUser] does not return at all: it
    panics with an index out of range, after both requests, instead of
    returning an error for the missing organisations. *)
Theorem FetchUser_empty_organisations :
  let env := Scripted.env (Scripted.ok Scripted.oneTenant)
                          (Scripted.ok Scripted.noOrganisations) in
  ProfileView.Organisations
    (@decodeProfile env Scripted.noOrganisations ProfileView.zero).1 = [] /\
  @FetchUser env Scripted.provider Scripted.session 0%nat
  = (Panic "runtime error: index out of range [0] with length 0", 2%nat,
     [EvDo (tenantsRequest Scripted.session);
      EvClose (Scripted.ok Scripted.oneTenant);
      EvDo (profileRequest Scripted.session "t-1");
      EvClose (Scripted.ok Scripted.noOrganisations)]).
Proof.
  split; [reflexivity|].
  apply (@FetchUser_no_organisations_panics
           (Scripted.env (Scripted.ok Scripted.oneTenant)
                         (Scripted.ok Scripted.noOrganisations))
           Scripted.provider Scripted.session 0%nat
           (Scripted.ok Scripted.oneTenant) 1%nat Scripted.tenant []
           (Scripted.ok Scripted.noOrganisations) 2%nat
           Scripted.noOrganisations (ProfileView.mk []));
    solve [reflexivity | discriminate].
Qed.

(** C8. On the run where tenant discovery answers 200 with the body [[]],
    the error [FetchUser] returns reads "No authorized xero tenants found"
    whatever the provider is called: for the provider registered as
    "xero2" the message does not contain that name, unlike the three
    errors built with [fmt.Errorf]. *)
Theorem FetchUser_no_tenants_message :
  let env := Scripted.env (Scripted.ok Scripted.noTenants)
                          (Scripted.ok Scripted.oneOrganisation) in
  (forall p : Provider.t,
     exists (user : User.t string) (err : error),
       @FetchUser env p Scripted.session 0%nat
       = (Return (user, Some err), 1%nat,
          [EvDo (tenantsRequest Scripted.session);
           EvClose (Scripted.ok Scripted.noTenants)]) /\
       Error err = "No authorized xero tenants found") /\
  Name Scripted.provider = "xero2" /\
  Contains "No authorized xero tenants found" (Name Scripted.provider) = false.
Proof.
  split; [|split; reflexivity].
  intros p. do 2 eexists. split; reflexivity.
Qed.

(* --------------------------------------------------------------------- *)
(** *** Timestamps: printing and reading *)

Lemma digitValue_digitChar (d : N) :
  (d < 10)%N -> Time.digitValue (Time.digitChar d) = Some d.
Proof.
  intros Hd.
  assert (Hcases : d = 0%N \/ d = 1%N \/ d = 2%N \/ d = 3%N \/ d = 4%N \/
                   d = 5%N \/ d = 6%N \/ d = 7%N \/ d = 8%N \/ d = 9%N) by lia.
  repeat (destruct Hcases as [-> | Hcases]; [reflexivity|]).
  now subst d.
Qed.

Lemma readDigits_digits (width : nat) :
  forall (n acc : N) (rest : string),
    Time.readDigits width acc (Time.digits width n +:+ rest)
    = Some ((acc * 10 ^ N.of_nat width + n mod 10 ^ N.of_nat width)%N, rest).
Proof.
  induction width as [|w IH]; intros n acc rest.
  - simpl. rewrite N.mod_1_r. do 2 f_equal. lia.
  - cbn [Time.digits]. simpl (String _ _ +:+ _). cbn [Time.readDigits].
    rewrite digitValue_digitChar by (apply N.mod_lt; lia).
    rewrite IH. do 2 f_equal.
    rewrite Nat2N.inj_succ, N.pow_succ_r'.
    rewrite (N.mul_comm 10 (10 ^ N.of_nat w)).
    rewrite (N.Div0.mod_mul_r n (10 ^ N.of_nat w) 10).
    lia.
Qed.

Lemma readDigits_exact (width : nat) (n : N) (rest : string) :
  (n < 10 ^ N.of_nat width)%N ->
  Time.readDigits width 0 (Time.digits width n +:+ rest) = Some (n, rest).
Proof.
  intros Hn. rewrite readDigits_digits, N.mod_small by exact Hn.
  reflexivity.
Qed.

Lemma daysIn_le_31 (y m : N) : (Time.daysIn y m <= 31)%N.
Proof.
  unfold Time.daysIn.
  repeat case_match; lia.
Qed.

Lemma format_shape (x : Time.t) :
  Time.format x =
  let c := proj1_sig x in
  Time.digits 4 (Time.year c) +:+ String "-"
    (Time.digits 2 (Time.month c) +:+ String "-"
       (Time.digits 2 (Time.day c) +:+ String "T"
          (Time.digits 2 (Time.hour c) +:+ String ":"
             (Time.digits 2 (Time.minute c) +:+ String ":"
                (Time.digits 2 (Time.second c) +:+ String "Z" ""))))).
Proof. reflexivity. Qed.

(** Reading back a printed timestamp gives the timestamp. *)
Lemma parse_format (x : Time.t) : Time.parse (Time.format x) = Some x.
Proof.
  rewrite format_shape. destruct x as [[y m d h mi se] ok]. cbv zeta.
  cbn [proj1_sig Time.year Time.month Time.day Time.hour Time.minute Time.second].
  pose proof ok as bounds. unfold Time.valid in bounds.
  cbn [Time.year Time.month Time.day Time.hour Time.minute Time.second] in bounds.
  repeat (apply andb_prop_elim in bounds as [bounds ?]).
  repeat match goal with
         | H : Is_true (_ <=? _)%N |- _ => apply Is_true_true, N.leb_le in H
         | H : Is_true (_ <? _)%N |- _ => apply Is_true_true, N.ltb_lt in H
         end.
  pose proof (daysIn_le_31 y m).
  unfold Time.parse.
  do 6 (rewrite readDigits_exact by (simpl; lia);
        cbn [mbind option_bind expect]; rewrite Ascii.eqb_refl;
        cbn [mbind option_bind]).
  unfold Time.ofCivil.
  destruct (Is_true_dec (Time.valid _)) as [ok'|bad]; [|contradiction].
  f_equal. apply sig_eq_pi; [apply _|reflexivity].
Qed.

(* --------------------------------------------------------------------- *)
(** *** String literals: escaping and reading *)

(** Reading an escaped character gives the character. *)
Lemma readString_escapeChar (c : ascii) (tail : string) :
  readString (escapeChar c +:+ tail) =
  match readString tail with
  | Some (text, rest) => Some (String c text, rest)
  | None => None
  end.
Proof.
  destruct c as [[] [] [] [] [] [] [] []]; reflexivity.
Qed.

(** Reading an escaped text up to the closing quote gives the text. *)
Lemma readString_escape (s rest : string) :
  readString (escape s +:+ String dquote rest) = Some (s, rest).
Proof.
  induction s as [|c s IH].
  - reflexivity.
  - cbn [escape]. rewrite append_assoc, readString_escapeChar, IH.
    reflexivity.
Qed.

Lemma escape_plain (s : string) : plain s -> escape s = s.
Proof.
  induction s as [|c s IH]; [reflexivity|].
  cbn [plain escape]. intros [Hc Hs]%andb_prop_elim.
  rewrite IH by exact Hs. clear IH Hs.
  unfold plainChar in Hc. unfold escapeChar.
  destruct (Ascii.eqb c dquote); [contradiction|].
  destruct (Ascii.eqb c backslash); [contradiction|].
  destruct (N_of_ascii c <? 32)%N; [contradiction|].
  reflexivity.
Qed.

Lemma plain_append (a b : string) : plain a -> plain b -> plain (a +:+ b).
Proof.
  induction a as [|c a IH]; [trivial|].
  cbn [plain]. simpl (String _ _ +:+ _). cbn [plain].
  intros [Hc Ha]%andb_prop_elim Hb.
  apply andb_prop_intro. auto.
Qed.

Lemma plain_digits (width : nat) (n : N) : plain (Time.digits width n).
Proof.
  induction width as [|w IH]; [exact I|].
  cbn [Time.digits plain]. apply andb_prop_intro. split; [|exact IH].
  generalize ((n / 10 ^ N.of_nat w) mod 10)%N. intros d.
  unfold Time.digitChar. repeat case_match; exact I.
Qed.

Lemma plain_format (x : Time.t) : plain (Time.format x).
Proof.
  rewrite format_shape. cbv zeta.
  repeat (apply plain_append; [apply plain_digits|];
          cbn [plain]; apply andb_prop_intro; split; [exact I|]).
  exact I.
Qed.

(* --------------------------------------------------------------------- *)
(** *** Members and objects *)

(** A member followed by [tail], with its first character in sight. *)
Lemma member_shape (key value tail : string) :
  member key (jsonString value) +:+ tail =
  String dquote
    (escape key +:+
     String dquote (String ":" (String dquote
       (escape value +:+ String dquote tail)))).
Proof.
  unfold member, jsonString.
  simpl. rewrite !append_assoc. simpl. rewrite !append_assoc. reflexivity.
Qed.

Lemma readMember_member (key value tail : string) :
  readMember (member key (jsonString value) +:+ tail)
  = Some (key, value, skipSpace tail).
Proof.
  rewrite member_shape. unfold readMember.
  cbn [expect]. rewrite Ascii.eqb_refl. cbn [mbind option_bind].
  rewrite readString_escape. cbn [mbind option_bind].
  change (skipSpace (String ":" ?s)) with (String ":"%char s).
  cbn [expect]. rewrite Ascii.eqb_refl. cbn [mbind option_bind].
  change (skipSpace (String dquote ?s)) with (String dquote s).
  cbn [expect]. rewrite Ascii.eqb_refl. cbn [mbind option_bind].
  rewrite readString_escape. reflexivity.
Qed.

Lemma skipSpace_member (key value tail : string) :
  skipSpace (member key (jsonString value) +:+ tail)
  = member key (jsonString value) +:+ tail.
Proof. rewrite member_shape. reflexivity. Qed.

(** A member followed by a comma: its field is assigned and reading goes
    on after the comma. *)
Lemma readMembers_comma (fuel : nat) (key value tail : string) (acc : Session.t) :
  readMembers (S fuel) (member key (jsonString value) +:+ String "," tail) acc
  = match setField key value acc with
    | Some acc' => readMembers fuel (skipSpace tail) acc'
    | None => None
    end.
Proof.
  cbn [readMembers]. rewrite readMember_member.
  change (skipSpace (String "," tail)) with (String ","%char tail).
  cbv beta iota. destruct (setField key value acc); reflexivity.
Qed.

(** A member followed by the closing brace: its field is assigned and
    reading stops, whatever follows the brace. *)
Lemma readMembers_close (fuel : nat) (key value tail : string) (acc : Session.t) :
  readMembers (S fuel) (member key (jsonString value) +:+ String "}" tail) acc
  = setField key value acc.
Proof.
  cbn [readMembers]. rewrite readMember_member.
  change (skipSpace (String "}" tail)) with (String "}"%char tail).
  cbv beta iota. destruct (setField key value acc); reflexivity.
Qed.

(** More fuel does not change a result. *)
Lemma readMembers_fuel (n : nat) :
  forall (m : nat) (s : string) (acc sess : Session.t),
    readMembers n s acc = Some sess -> (n <= m)%nat ->
    readMembers m s acc = Some sess.
Proof.
  induction n as [|n IH]; intros m s acc sess Hread Hle; [discriminate|].
  destruct m as [|m]; [lia|].
  cbn [readMembers] in Hread |- *.
  destruct (readMember s) as [[[key value] [|c s']]|]; try discriminate.
  destruct (setField key value acc) as [acc'|]; [|discriminate].
  destruct (Ascii.eqb c ","); [|exact Hread].
  apply IH; [exact Hread | lia].
Qed.

(** The text of a serialised session, followed by [tail], member by
    member. *)
Lemma Marshal_shape (s : Session.t) (tail : string) :
  Marshal s +:+ tail =
  String "{"
    (member "AuthURL" (jsonString (Session.AuthURL s)) +:+ String ","
    (member "AccessToken" (jsonString (Session.AccessToken s)) +:+ String ","
    (member "Hostname" (jsonString (Session.Hostname s)) +:+ String ","
    (member "HMAC" (jsonString (Session.HMAC s)) +:+ String ","
    (member "ExpiresAt" (jsonString (Time.format (Session.ExpiresAt s))) +:+
     String "}" tail))))).
Proof.
  assert (Htime : String dquote (Time.format (Session.ExpiresAt s) +:+
                                 String dquote "")
                  = jsonString (Time.format (Session.ExpiresAt s))).
  { unfold jsonString. now rewrite (escape_plain _ (plain_format _)). }
  unfold Marshal. rewrite Htime. clear Htime.
  set (m1 := member "AuthURL" _). set (m2 := member "AccessToken" _).
  set (m3 := member "Hostname" _). set (m4 := member "HMAC" _).
  set (m5 := member "ExpiresAt" _).
  rewrite !append_assoc. reflexivity.
Qed.

Lemma readMembers_Marshal (fuel : nat) (s : Session.t) (tail : string) :
  (5 <= fuel)%nat ->
  readMembers fuel
    (member "AuthURL" (jsonString (Session.AuthURL s)) +:+ String ","
    (member "AccessToken" (jsonString (Session.AccessToken s)) +:+ String ","
    (member "Hostname" (jsonString (Session.Hostname s)) +:+ String ","
    (member "HMAC" (jsonString (Session.HMAC s)) +:+ String ","
    (member "ExpiresAt" (jsonString (Time.format (Session.ExpiresAt s))) +:+
     String "}" tail)))))
    Session.zero
  = Some (serialisedFields s).
Proof.
  intros Hfuel. apply (readMembers_fuel 5); [|exact Hfuel].
  do 4 (rewrite readMembers_comma; cbn [setField String.eqb Ascii.eqb Bool.eqb];
        rewrite skipSpace_member).
  rewrite readMembers_close.
  unfold setField. cbn [String.eqb Ascii.eqb Bool.eqb].
  rewrite parse_format. reflexivity.
Qed.

Lemma length_Marshal (s : Session.t) (tail : string) :
  (5 <= String.length (Marshal s +:+ tail))%nat.
Proof.
  rewrite Marshal_shape, member_shape.
  cbn [String.length escape escapeChar]. simpl. lia.
Qed.

Lemma expect_brace_member (key value tail : string) :
  expect "}" (member key (jsonString value) +:+ tail) = None.
Proof. rewrite member_shape. reflexivity. Qed.

(** Reading a serialised session followed by anything gives the session it
    denotes. *)
Lemma Unmarshal_Marshal_append (s : Session.t) (tail : string) :
  Unmarshal (Marshal s +:+ tail) = Ok (serialisedFields s).
Proof.
  unfold Unmarshal.
  pose proof (length_Marshal s tail) as Hlen.
  rewrite Marshal_shape in *.
  set (fuel := String.length _) in *.
  change (skipSpace (String "{" ?X)) with (String "{"%char X).
  cbn [expect]. rewrite Ascii.eqb_refl. cbv zeta.
  rewrite skipSpace_member, expect_brace_member.
  rewrite (readMembers_Marshal fuel s tail Hlen). reflexivity.
Qed.

(* --------------------------------------------------------------------- *)
(** *** Characters after the object are not read *)

Lemma length_append (a b : string) :
  String.length (a +:+ b) = (String.length a + String.length b)%nat.
Proof. induction a as [|c a IH]; simpl; [reflexivity | now rewrite IH]. Qed.







(* --------------------------------------------------------------------- *)
(** *** An accepted text has a closed object *)











(* --------------------------------------------------------------------- *)
(** *** The session *)

(** [Test_GetAuthURL] *)
Example GetAuthURL_tests :
  GetAuthURL Session.zero = Err ErrorNoAuthURL /\
  GetAuthURL (Session.mk "/foo" "" "" "" "" Time.zero) = Ok "/foo".
Proof. split; reflexivity. Qed.

(** [Test_ToJSON] and [Test_String] *)
Example Marshal_zero_session :
  Marshal Session.zero =
  json "{'AuthURL':'','AccessToken':'','Hostname':'','HMAC':'','ExpiresAt':'0001-01-01T00:00:00Z'}" /\
  SessionString Session.zero = Marshal Session.zero.
Proof. split; reflexivity. Qed.

(** A serialised session denotes its serialised fields. *)
Lemma Unmarshal_Marshal (s : Session.t) :
  Unmarshal (Marshal s) = Ok (serialisedFields s).
Proof.
  rewrite <- (append_empty_r (Marshal s)). apply Unmarshal_Marshal_append.
Qed.

(** C6. For every session, Marshal, then Unmarshal, then Marshal again
    gives the text of the first Marshal: Unmarshal accepts the first text,
    and the session it yields serialises to the same text. *)
Theorem Marshal_Unmarshal_Marshal :
  forall s : Session.t,
    exists s' : Session.t,
      Unmarshal (Marshal s) = Ok s' /\ Marshal s' = Marshal s.
Proof.
  intros s. exists (serialisedFields s). split.
  - apply Unmarshal_Marshal.
  - reflexivity.
Qed.


(* ===================================================================== *)
(** ** Further properties of the provider *)
(* ===================================================================== *)

(* --------------------------------------------------------------------- *)
(** *** FetchUser: the error paths of tenant discovery *)

Section DiscoveryErrors.
Context `{env : Env}.
Implicit Types (p : Provider.t) (sess : Session.t) (w : World).

(** With an access token, [FetchUser] is decided by the run of
    [fetchAuthorizedTenants]. *)
Lemma FetchUser_with_token p sess w :
  Session.AccessToken sess <> "" ->
  FetchUser p sess w =
  match fetchAuthorizedTenants p sess w with
  | (Panic msg, w1, t1) => (Panic msg, w1, t1)
  | (Return (tenants, err), w1, t1) =>
      match err with
      | Some err => (Return (sessionRecord p sess, Some err), w1, t1)
      | None =>
          match tenants with
          | [] => (Return (sessionRecord p sess, Some ErrorNoAuthorizedTenants),
                   w1, t1)
          | None :: _ => (Panic panicNilDereference, w1, t1)
          | Some t0 :: _ =>
              match fetchTenantInformation p (sessionRecord p sess) sess
                      (XeroTenant.TenantID t0) w1
              with
              | (o, w2, t2) => (o, w2, t1 ++ t2)
              end
          end
      end
  end.
Proof.
  intros Htoken. rewrite FetchUser_run. cbv zeta.
  apply String.eqb_neq in Htoken. rewrite Htoken. reflexivity.
Qed.

(** X1. When tenant discovery answers with a status other than 200,
    [FetchUser] returns the session's record with the error that names the
    provider and the status, after one request and the closing of the
    response body; the profile endpoint is not called. *)
Theorem FetchUser_discovery_status p sess w response w1 :
  Session.AccessToken sess <> "" ->
  clientDo (tenantsRequest sess) w = ((Some response, None), w1) ->
  Response.StatusCode response <> StatusOK ->
  FetchUser p sess w =
    (Return (sessionRecord p sess,
             Some (ErrorUpstreamStatusTenants (Name p)
                     (Response.StatusCode response))),
     w1, [EvDo (tenantsRequest sess); EvClose response]).
Proof.
  intros Htoken Hdo Hstatus.
  rewrite (FetchUser_with_token _ _ _ Htoken), fetchAuthorizedTenants_run, Hdo.
  apply Z.eqb_neq in Hstatus. rewrite Hstatus. reflexivity.
Qed.

(** X2. When the client fails on the tenant-discovery request, [FetchUser]
    returns the client's error as it is, with the session's record; the
    response body is closed when the client gave a response with the
    error, and no second request is made. *)
Theorem FetchUser_discovery_transport_error p sess w answer err w1 :
  Session.AccessToken sess <> "" ->
  clientDo (tenantsRequest sess) w = (answer, w1) ->
  answer.2 = Some err ->
  FetchUser p sess w =
    (Return (sessionRecord p sess, Some err), w1,
     exchange (tenantsRequest sess) answer).
Proof.
  intros Htoken Hdo Herr. destruct answer as [response oerr].
  cbn [snd] in Herr. subst oerr.
  rewrite (FetchUser_with_token _ _ _ Htoken), fetchAuthorizedTenants_run, Hdo.
  destruct response; reflexivity.
Qed.

(** X3. When the body of the tenant-discovery response cannot be read, or
    is read and cannot be decoded, [FetchUser] returns that error as it is
    with the session's record, whatever the decoder left in the list, and
    makes no second request. *)
Theorem FetchUser_discovery_unreadable p sess w response w1 err :
  Session.AccessToken sess <> "" ->
  clientDo (tenantsRequest sess) w = ((Some response, None), w1) ->
  Response.StatusCode response = StatusOK ->
  Body.readError (Response.Body response) = Some err \/
  (Body.readError (Response.Body response) = None /\
   (decodeTenants (Body.bits (Response.Body response)) []).2 = Some err) ->
  FetchUser p sess w =
    (Return (sessionRecord p sess, Some err), w1,
     [EvDo (tenantsRequest sess); EvClose response]).
Proof.
  intros Htoken Hdo Hstatus Hbody.
  rewrite (FetchUser_with_token _ _ _ Htoken), fetchAuthorizedTenants_run, Hdo,
    Hstatus.
  cbn [negb Z.eqb StatusOK Pos.eqb].
  destruct Hbody as [Hread | [Hread Hdecode]]; rewrite Hread; [reflexivity|].
  destruct (decodeTenants _ _) as [tenants oerr]. cbn [snd] in Hdecode.
  subst oerr. reflexivity.
Qed.

(** X4. [fetchAuthorizedTenants] never returns tenants together with an
    error: the list is nil on every error return. *)
Theorem fetchAuthorizedTenants_error_nil p sess w tenants err w1 trace :
  fetchAuthorizedTenants p sess w = (Return (tenants, Some err), w1, trace) ->
  tenants = [].
Proof.
  rewrite fetchAuthorizedTenants_run.
  repeat case_match; intros; simplify_eq; reflexivity.
Qed.

End DiscoveryErrors.

(* --------------------------------------------------------------------- *)
(** *** FetchUser: after a successful tenant discovery *)

Section AfterDiscovery.
Context `{env : Env}.
Variables (p : Provider.t) (sess : Session.t) (w w1 : World).
Variables (response : Response.t) (t0 : XeroTenant.t).
Variable tenants : list (option XeroTenant.t).

Hypothesis Htoken : Session.AccessToken sess <> "".
Hypothesis Hdo : clientDo (tenantsRequest sess) w = ((Some response, None), w1).
Hypothesis Hstatus : Response.StatusCode response = StatusOK.
Hypothesis Hread : Body.readError (Response.Body response) = None.
Hypothesis Hdecode :
  decodeTenants (Body.bits (Response.Body response)) []
  = (Some t0 :: tenants, None).

(** The run goes on with [fetchTenantInformation] for the first tenant. *)
Lemma FetchUser_after_discovery :
  FetchUser p sess w =
  match fetchTenantInformation p (sessionRecord p sess) sess
          (XeroTenant.TenantID t0) w1
  with
  | (o, w2, t2) =>
      (o, w2, [EvDo (tenantsRequest sess); EvClose response] ++ t2)
  end.
Proof using Htoken Hdo Hstatus Hread Hdecode.
  rewrite (FetchUser_with_token _ _ _ Htoken), fetchAuthorizedTenants_run, Hdo,
    Hstatus, Hread, Hdecode.
  reflexivity.
Qed.

(** X5. When the profile call answers with a status other than 200,
    [FetchUser] returns the error that names the provider and the status,
    with a record that has the session's tokens and no identity and no raw
    payload. *)
Theorem FetchUser_profile_status resp w2 :
  clientDo (profileRequest sess (XeroTenant.TenantID t0)) w1
    = ((Some resp, None), w2) ->
  Response.StatusCode resp <> StatusOK ->
  FetchUser p sess w =
    (Return (sessionRecord p sess,
             Some (ErrorUpstreamStatusProfile (Name p)
                     (Response.StatusCode resp))),
     w2,
     [EvDo (tenantsRequest sess); EvClose response;
      EvDo (profileRequest sess (XeroTenant.TenantID t0)); EvClose resp]).
Proof using Htoken Hdo Hstatus Hread Hdecode.
  intros Hdo2 Hstatus2.
  rewrite FetchUser_after_discovery, fetchTenantInformation_run, Hdo2.
  apply Z.eqb_neq in Hstatus2. rewrite Hstatus2. reflexivity.
Qed.

(** X6. When the client fails on the profile request, [FetchUser] returns
    the client's error as it is with the session's record, and closes the
    response body when the client gave a response with the error. *)
Theorem FetchUser_profile_transport_error answer err w2 :
  clientDo (profileRequest sess (XeroTenant.TenantID t0)) w1 = (answer, w2) ->
  answer.2 = Some err ->
  FetchUser p sess w =
    (Return (sessionRecord p sess, Some err), w2,
     [EvDo (tenantsRequest sess); EvClose response] ++
     exchange (profileRequest sess (XeroTenant.TenantID t0)) answer).
Proof using Htoken Hdo Hstatus Hread Hdecode.
  intros Hdo2 Herr. destruct answer as [resp oerr].
  cbn [snd] in Herr. subst oerr.
  rewrite FetchUser_after_discovery, fetchTenantInformation_run, Hdo2.
  destruct resp; reflexivity.
Qed.

(** X7. When the profile body cannot be read, [FetchUser] returns the read
    error as it is, and the record has no raw payload. *)
Theorem FetchUser_profile_read_error resp w2 err :
  clientDo (profileRequest sess (XeroTenant.TenantID t0)) w1
    = ((Some resp, None), w2) ->
  Response.StatusCode resp = StatusOK ->
  Body.readError (Response.Body resp) = Some err ->
  FetchUser p sess w =
    (Return (sessionRecord p sess, Some err), w2,
     [EvDo (tenantsRequest sess); EvClose response;
      EvDo (profileRequest sess (XeroTenant.TenantID t0)); EvClose resp]).
Proof using Htoken Hdo Hstatus Hread Hdecode.
  intros Hdo2 Hstatus2 Hread2.
  rewrite FetchUser_after_discovery, fetchTenantInformation_run, Hdo2,
    Hstatus2, Hread2.
  reflexivity.
Qed.

(** X8. When one of the two decoding passes over the profile body fails,
    [FetchUser] returns that error with a record that has no Name,
    NickName or UserID but does hold, as raw payload, what the first pass
    produced: after a failure of the second pass the raw payload is the
    decoded one. *)
Theorem FetchUser_profile_decode_error resp w2 raw oerr1 u oerr2 err :
  clientDo (profileRequest sess (XeroTenant.TenantID t0)) w1
    = ((Some resp, None), w2) ->
  Response.StatusCode resp = StatusOK ->
  Body.readError (Response.Body resp) = None ->
  decodeRawData (Body.bits (Response.Body resp)) nilRawData = (raw, oerr1) ->
  decodeProfile (Body.bits (Response.Body resp)) ProfileView.zero
    = (u, oerr2) ->
  oerr1 = Some err \/ (oerr1 = None /\ oerr2 = Some err) ->
  FetchUser p sess w =
    (Return (User.setRawData (sessionRecord p sess) raw, Some err), w2,
     [EvDo (tenantsRequest sess); EvClose response;
      EvDo (profileRequest sess (XeroTenant.TenantID t0)); EvClose resp]).
Proof using Htoken Hdo Hstatus Hread Hdecode.
  intros Hdo2 Hstatus2 Hread2 Hraw Hprofile Herr.
  rewrite FetchUser_after_discovery, fetchTenantInformation_run, Hdo2,
    Hstatus2, Hread2.
  cbn [negb Z.eqb StatusOK Pos.eqb]. cbv zeta.
  change (User.RawData_ (sessionRecord p sess)) with nilRawData.
  rewrite Hraw.
  destruct Herr as [-> | [-> ->]]; [reflexivity|].
  rewrite Hprofile. reflexivity.
Qed.

(** X9. On the successful run the record is fully determined: the decoded
    raw payload, the provider's name, the first organisation's Name,
    LegalName and ShortCode, and the session's tokens and expiry. The other
    tenants and the other organisations play no part. The run is the two
    exchanges, each response body closed before the next step. *)
Theorem FetchUser_success_record resp w2 raw u o orgs :
  clientDo (profileRequest sess (XeroTenant.TenantID t0)) w1
    = ((Some resp, None), w2) ->
  Response.StatusCode resp = StatusOK ->
  Body.readError (Response.Body resp) = None ->
  decodeRawData (Body.bits (Response.Body resp)) nilRawData = (raw, None) ->
  decodeProfile (Body.bits (Response.Body resp)) ProfileView.zero
    = (u, None) ->
  ProfileView.Organisations u = o :: orgs ->
  FetchUser p sess w =
    (Return ({| User.RawData_ := raw;
                User.Provider := Name p;
                User.Name := XeroOrganization.Name o;
                User.NickName := XeroOrganization.LegalName o;
                User.UserID := XeroOrganization.ShortCode o;
                User.AccessToken := Session.AccessToken sess;
                User.RefreshToken := Session.RefreshToken sess;
                User.ExpiresAt := Session.ExpiresAt sess |}, None),
     w2,
     [EvDo (tenantsRequest sess); EvClose response;
      EvDo (profileRequest sess (XeroTenant.TenantID t0)); EvClose resp]).
Proof using Htoken Hdo Hstatus Hread Hdecode.
  intros Hdo2 Hstatus2 Hread2 Hraw Hprofile Horgs.
  rewrite FetchUser_after_discovery, fetchTenantInformation_run, Hdo2,
    Hstatus2, Hread2.
  cbn [negb Z.eqb StatusOK Pos.eqb]. cbv zeta.
  change (User.RawData_ (sessionRecord p sess)) with nilRawData.
  rewrite Hraw, Hprofile, Horgs. reflexivity.
Qed.

End AfterDiscovery.

(* --------------------------------------------------------------------- *)
(** *** FetchUser: what holds of every run *)

Section EveryRun.
Context `{env : Env}.
Implicit Types (p : Provider.t) (sess : Session.t) (w : World).

(** X10. [FetchUser] succeeds only on the run where both calls answered
    200 with readable bodies, the tenant list began with a tenant, both
    decoding passes of the profile succeeded and the organisations list was
    not empty; the record is then the one of that run. *)
Theorem FetchUser_success_only p sess w user w2 trace :
  FetchUser p sess w = (Return (user, None), w2, trace) ->
  exists response w1 t0 tenants resp raw u o orgs,
    Session.AccessToken sess <> "" /\
    clientDo (tenantsRequest sess) w = ((Some response, None), w1) /\
    Response.StatusCode response = StatusOK /\
    Body.readError (Response.Body response) = None /\
    decodeTenants (Body.bits (Response.Body response)) []
      = (Some t0 :: tenants, None) /\
    clientDo (profileRequest sess (XeroTenant.TenantID t0)) w1
      = ((Some resp, None), w2) /\
    Response.StatusCode resp = StatusOK /\
    Body.readError (Response.Body resp) = None /\
    decodeRawData (Body.bits (Response.Body resp)) nilRawData = (raw, None) /\
    decodeProfile (Body.bits (Response.Body resp)) ProfileView.zero
      = (u, None) /\
    ProfileView.Organisations u = o :: orgs /\
    user = User.mk raw (Name p) (XeroOrganization.Name o)
             (XeroOrganization.LegalName o) (XeroOrganization.ShortCode o)
             (Session.AccessToken sess) (Session.RefreshToken sess)
             (Session.ExpiresAt sess) /\
    trace = [EvDo (tenantsRequest sess); EvClose response;
             EvDo (profileRequest sess (XeroTenant.TenantID t0));
             EvClose resp].
Proof.
  destruct (String.eqb_spec (Session.AccessToken sess) "") as [Hempty|Htoken].
  { rewrite FetchUser_run. cbv zeta. rewrite Hempty. discriminate. }
  rewrite (FetchUser_with_token _ _ _ Htoken), fetchAuthorizedTenants_run.
  destruct (clientDo (tenantsRequest sess) w)
    as [[[response|] [err|]] w1] eqn:Hdo; try discriminate.
  destruct (negb (Response.StatusCode response =? StatusOK)) eqn:Hstatus;
    [discriminate|].
  apply negb_false_iff, Z.eqb_eq in Hstatus.
  destruct (Body.readError (Response.Body response)) eqn:Hread;
    [discriminate|].
  destruct (decodeTenants _ _) as [tenants [err|]] eqn:Hdecode;
    [discriminate|].
  destruct tenants as [|[t0|] tenants]; try discriminate.
  rewrite fetchTenantInformation_run.
  destruct (clientDo (profileRequest sess (XeroTenant.TenantID t0)) w1)
    as [[[resp|] [err|]] w2'] eqn:Hdo2; try discriminate.
  destruct (negb (Response.StatusCode resp =? StatusOK)) eqn:Hstatus2;
    [discriminate|].
  apply negb_false_iff, Z.eqb_eq in Hstatus2.
  destruct (Body.readError (Response.Body resp)) eqn:Hread2; [discriminate|].
  cbv zeta. change (User.RawData_ (sessionRecord p sess)) with nilRawData.
  destruct (decodeRawData _ _) as [raw [err|]] eqn:Hraw; [discriminate|].
  destruct (decodeProfile _ _) as [u [err|]] eqn:Hprofile; [discriminate|].
  destruct (ProfileView.Organisations u) as [|o orgs] eqn:Horgs;
    [discriminate|].
  intros [= <- <- <-].
  exists response, w1, t0, tenants, resp, raw, u, o, orgs.
  repeat split; assumption || reflexivity.
Qed.

(** X11. On every run the requests are none, the tenant-discovery request
    alone, or the tenant-discovery request followed by one profile
    request. Every request is a GET to one of the two fixed endpoints and
    carries the bearer form of the session's token; a session without
    token causes no request. *)
Theorem FetchUser_requests p sess w :
  let requests := requestsOf (FetchUser p sess w).2 in
  (requests = [] \/
   requests = [tenantsRequest sess] \/
   exists tenantID : string,
     requests = [tenantsRequest sess; profileRequest sess tenantID]) /\
  Forall (fun req =>
            Request.Method req = "GET" /\
            (Request.URL req = tenantsURL \/
             Request.URL req = endpointProfile) /\
            Request.Header req !! "Authorization" = Some [bearer sess])
         requests /\
  (requests <> [] -> Session.AccessToken sess <> "").
Proof.
  assert (Hshape :
    let requests := requestsOf (FetchUser p sess w).2 in
    (requests = [] \/ Session.AccessToken sess <> "" /\
       (requests = [tenantsRequest sess] \/
        exists tenantID : string,
          requests = [tenantsRequest sess; profileRequest sess tenantID]))).
  { cbv zeta.
    destruct (String.eqb_spec (Session.AccessToken sess) "") as [Hempty|Htoken].
    { left. rewrite FetchUser_run. cbv zeta. now rewrite Hempty. }
    right. split; [exact Htoken|].
    rewrite (FetchUser_with_token _ _ _ Htoken), fetchAuthorizedTenants_run.
    destruct (clientDo (tenantsRequest sess) w)
      as [[[response|] [err|]] w1]; try (left; reflexivity).
    destruct (if negb (Response.StatusCode response =? StatusOK) then _ else _)
      as [tenants [err|]]; [left; reflexivity|].
    destruct tenants as [|[t0|] tenants]; try (left; reflexivity).
    right. exists (XeroTenant.TenantID t0).
    rewrite fetchTenantInformation_run.
    destruct (clientDo (profileRequest sess (XeroTenant.TenantID t0)) w1)
      as [[[resp|] [err|]] w2]; reflexivity. }
  cbv zeta in Hshape |- *.
  assert (Hreq1 : Request.Header (tenantsRequest sess) !! "Authorization"
                  = Some [bearer sess]) by apply lookup_singleton_eq.
  assert (Hreq2 : forall tenantID,
             Request.Header (profileRequest sess tenantID) !! "Authorization"
             = Some [bearer sess]).
  { intros tenantID. unfold profileRequest. cbn [Request.Header].
    rewrite lookup_insert_ne by done. apply lookup_singleton_eq. }
  destruct Hshape as [-> | [Htoken [-> | [tenantID ->]]]].
  - split; [now left|]. split; [constructor | congruence].
  - split; [right; now left|]. split; [|trivial].
    constructor; [|constructor].
    split; [reflexivity|]. split; [now left | exact Hreq1].
  - split; [right; right; now exists tenantID|]. split; [|trivial].
    constructor; [|constructor; [|constructor]].
    + split; [reflexivity|]. split; [now left | exact Hreq1].
    + split; [reflexivity|]. split; [now right | apply Hreq2].
Qed.

(** X12. On every run, each request is answered by the client in the state
    of the world the previous exchange left, the run ends in the state the
    last exchange left, and the events are the exchanges one after the
    other: every response the client gave, with or without an error, has
    its body closed, once, before the next request; this holds on the
    panicking runs too. *)
Theorem FetchUser_exchanges p sess w :
  let run := FetchUser p sess w in
  let requests := requestsOf run.2 in
  let answers := (answersTo requests w).1 in
  run.1.2 = (answersTo requests w).2 /\
  run.2 = concat (zip_with exchange requests answers) /\
  closedOf run.2 = omap fst answers.
Proof.
  cbv zeta.
  destruct (String.eqb_spec (Session.AccessToken sess) "") as [Hempty|Htoken].
  { rewrite FetchUser_run. cbv zeta. rewrite Hempty. now repeat split. }
  rewrite (FetchUser_with_token _ _ _ Htoken), fetchAuthorizedTenants_run.
  destruct (clientDo (tenantsRequest sess) w)
    as [[[response|] [err|]] w1] eqn:Hdo;
    try (cbn [fst snd requestsOf omap list_omap answersTo app];
         rewrite Hdo; now repeat split).
  destruct (if negb (Response.StatusCode response =? StatusOK) then _ else _)
    as [tenants [err|]];
    [cbn [fst snd requestsOf omap list_omap answersTo app];
     rewrite Hdo; now repeat split|].
  destruct tenants as [|[t0|] tenants];
    try (cbn [fst snd requestsOf omap list_omap answersTo app];
         rewrite Hdo; now repeat split).
  rewrite fetchTenantInformation_run.
  destruct (clientDo (profileRequest sess (XeroTenant.TenantID t0)) w1)
    as [[[resp|] [err|]] w2] eqn:Hdo2;
    cbn [fst snd requestsOf omap list_omap answersTo app];
    rewrite Hdo, Hdo2; now repeat split.
Qed.


(** X14. Whenever [FetchUser] returns an error, the record returned with it
    has no Name, no NickName and no UserID: the identity fields are set
    only on the successful run. *)
Theorem FetchUser_error_no_identity p sess w user err w' trace :
  FetchUser p sess w = (Return (user, Some err), w', trace) ->
  User.Name user = "" /\ User.NickName user = "" /\ User.UserID user = "".
Proof.
  rewrite FetchUser_run. cbv zeta.
  destruct (String.eqb (Session.AccessToken sess) "");
    [now intros [= <- _ _ _]|].
  destruct (fetchAuthorizedTenants p sess w)
    as [[[[tenants [err1|]]|msg] w1] t1]; try discriminate.
  { now intros [= <- _ _ _]. }
  destruct tenants as [|[t0|] tenants]; try discriminate.
  { now intros [= <- _ _ _]. }
  rewrite fetchTenantInformation_run. cbv zeta.
  repeat case_match; intros; simplify_eq; repeat split; reflexivity.
Qed.


End EveryRun.

(* --------------------------------------------------------------------- *)
(** *** The error messages tell the failing step *)

Lemma substring_all (s : string) : String.substring 0 (String.length s) s = s.
Proof. induction s as [|c s IH]; simpl; [reflexivity | now rewrite IH]. Qed.

Lemma substring_append (a b : string) :
  String.substring (String.length a) (String.length b) (a +:+ b) = b.
Proof.
  induction a as [|c a IH]; simpl.
  - apply substring_all.
  - exact IH.
Qed.

Lemma HasSuffix_append (a b : string) : HasSuffix (a +:+ b) b = true.
Proof.
  unfold HasSuffix. rewrite length_append.
  replace (String.length a + String.length b - String.length b)%nat
    with (String.length a) by lia.
  rewrite substring_append, String.eqb_refl, andb_true_r.
  apply Nat.leb_le. lia.
Qed.

(** A text has one suffix of each length. *)
Lemma HasSuffix_unique (s x y : string) :
  HasSuffix s x = true -> HasSuffix s y = true ->
  String.length x = String.length y -> x = y.
Proof.
  unfold HasSuffix.
  intros [_ Hx%String.eqb_eq]%andb_true_iff [_ Hy%String.eqb_eq]%andb_true_iff
    Hlen.
  rewrite <- Hx, <- Hy, Hlen. reflexivity.
Qed.

(** The last thirteen characters of the four messages of [FetchUser]. *)
Lemma error_message_suffixes (name : string) (code : Z) :
  HasSuffix (Error (ErrorNoAccessToken name)) "t accessToken" = true /\
  HasSuffix (Error ErrorNoAuthorizedTenants) "tenants found" = true /\
  HasSuffix (Error (ErrorUpstreamStatusTenants name code)) "s information"
    = true /\
  HasSuffix (Error (ErrorUpstreamStatusProfile name code)) "t information"
    = true.
Proof.
  split; [|split; [|split]].
  - replace (Error (ErrorNoAccessToken name))
      with ((name +:+ " cannot get organization information withou")
            +:+ "t accessToken")
      by (cbn [Error ErrorNoAccessToken]; now rewrite append_assoc).
    apply HasSuffix_append.
  - reflexivity.
  - replace (Error (ErrorUpstreamStatusTenants name code))
      with ((name +:+ " responded with a " +:+ pretty code +:+
             " trying to fetch authorized xero tenant") +:+ "s information")
      by (cbn [Error ErrorUpstreamStatusTenants]; now rewrite !append_assoc).
    apply HasSuffix_append.
  - replace (Error (ErrorUpstreamStatusProfile name code))
      with ((name +:+ " responded with a " +:+ pretty code +:+
             " trying to fetch xero tenan") +:+ "t information")
      by (cbn [Error ErrorUpstreamStatusProfile]; now rewrite !append_assoc).
    apply HasSuffix_append.
Qed.

(** X16. The messages of the four errors that [FetchUser] builds are
    pairwise different, whatever the provider's name and the status code
    in each of them: the message alone tells whether the token was
    missing, which of the two calls was answered with a bad status, or
    that no tenant was authorized. *)
Theorem FetchUser_error_messages_distinct
    (name1 name3 name4 : string) (code3 code4 : Z) :
  let noToken := Error (ErrorNoAccessToken name1) in
  let noTenants := Error ErrorNoAuthorizedTenants in
  let discovery := Error (ErrorUpstreamStatusTenants name3 code3) in
  let profile := Error (ErrorUpstreamStatusProfile name4 code4) in
  noToken <> noTenants /\ noToken <> discovery /\ noToken <> profile /\
  noTenants <> discovery /\ noTenants <> profile /\ discovery <> profile.
Proof.
  cbv zeta.
  destruct (error_message_suffixes name1 0) as (H1 & H2 & _ & _).
  destruct (error_message_suffixes name3 code3) as (_ & _ & H3 & _).
  destruct (error_message_suffixes name4 code4) as (_ & _ & _ & H4).
  repeat split; intros Heq;
    [ rewrite Heq in H1; pose proof (HasSuffix_unique _ _ _ H1 H2 eq_refl)
    | rewrite Heq in H1; pose proof (HasSuffix_unique _ _ _ H1 H3 eq_refl)
    | rewrite Heq in H1; pose proof (HasSuffix_unique _ _ _ H1 H4 eq_refl)
    | rewrite Heq in H2; pose proof (HasSuffix_unique _ _ _ H2 H3 eq_refl)
    | rewrite Heq in H2; pose proof (HasSuffix_unique _ _ _ H2 H4 eq_refl)
    | rewrite Heq in H3; pose proof (HasSuffix_unique _ _ _ H3 H4 eq_refl) ];
    discriminate.
Qed.

(* --------------------------------------------------------------------- *)
(** *** New, the configuration and the scopes *)

(** X17. When the caller gives scopes, the configuration holds exactly
    these scopes, in the caller's order, each followed by one space; the
    default scopes are not added. *)
Theorem New_given_scopes (clientKey secret callbackURL : string)
    (scopes : list string) :
  scopes <> [] ->
  Config.Scopes <$> Provider.config (New clientKey secret callbackURL scopes)
  = Some (map (fun scope => scope +:+ " ") scopes).
Proof.
  intros Hscopes. destruct scopes as [|scope scopes]; [contradiction|].
  reflexivity.
Qed.

(** Whatever the scopes, the provider that [New] builds is named
    "xero2", keeps the caller's scope list as it was given, and has a
    configuration whose client id, secret and redirect URL are the
    arguments and whose endpoints are the two fixed Xero URLs. *)
Theorem New_configuration (clientKey secret callbackURL : string)
    (scopes : list string) :
  let p := New clientKey secret callbackURL scopes in
  Name p = "xero2" /\
  Provider.ClientKey p = clientKey /\
  Provider.Secret p = secret /\
  Provider.CallbackURL p = callbackURL /\
  Provider.scopes p = scopes /\
  exists c : Config.t,
    Provider.config p = Some c /\
    Config.ClientID c = clientKey /\
    Config.ClientSecret c = secret /\
    Config.RedirectURL c = callbackURL /\
    Config.Endpoint c =
      Endpoint.mk "https://login.xero.com/identity/connect/authorize"
                  "https://identity.xero.com/connect/token".
Proof.
  cbv zeta. repeat (split; [reflexivity|]).
  eexists. split; [reflexivity|].
  unfold newConfig. destruct (0 <? Z.of_nat (length scopes));
    repeat split; reflexivity.
Qed.

(** X18. Whatever the scopes, the scope list of the configuration is never
    empty, every token in it ends with a space, and it has as many tokens
    as the caller gave, or five when the caller gave none. *)
Theorem New_scopes_invariant (clientKey secret callbackURL : string)
    (scopes : list string) :
  exists tokens : list string,
    Config.Scopes <$> Provider.config (New clientKey secret callbackURL scopes)
      = Some tokens /\
    tokens <> [] /\
    Forall (fun token => HasSuffix token " " = true) tokens /\
    length tokens = match scopes with
                    | [] => 5%nat
                    | _ :: _ => length scopes
                    end.
Proof.
  assert (Hmap : forall l : list string,
            Forall (fun token => HasSuffix token " " = true)
                   (map (fun scope => scope +:+ " ") l)).
  { intros l. induction l as [|scope l IH]; cbn [map]; constructor;
      [apply HasSuffix_append | exact IH]. }
  destruct scopes as [|scope scopes].
  - eexists. split; [reflexivity|]. split; [discriminate|].
    split; [apply (Hmap defaultScopes) | reflexivity].
  - exists (map (fun s => s +:+ " ") (scope :: scopes)).
    split; [reflexivity|]. split; [discriminate|].
    split; [apply Hmap | apply length_map].
Qed.

(** X19. The scope catalogue has fourteen names and thirteen wire strings:
    the read-only attachments scope is the same string as the attachments
    scope, and the other thirteen are pairwise different. No scope contains
    a space, and the default scopes are in the catalogue. *)
Theorem scopeCatalogue_strings :
  ScopeAccountingAttachmentsRead = ScopeAccountingAttachments /\
  length scopeCatalogue = 14%nat /\
  NoDup (take 13 scopeCatalogue) /\
  Forall (fun scope => Contains scope " " = false) scopeCatalogue /\
  Forall (fun scope => In scope scopeCatalogue) defaultScopes.
Proof.
  split; [reflexivity|]. split; [reflexivity|]. split.
  - apply (bool_decide_unpack (NoDup (take 13 scopeCatalogue))).
    vm_compute. exact I.
  - split.
    + repeat constructor.
    + repeat constructor; cbn; tauto.
Qed.

(* --------------------------------------------------------------------- *)
(** *** BeginAuth and SetName *)

(** X20. The session that [BeginAuth] returns holds the authorization URL
    and no access token, so [FetchUser] on it, before any token has been
    stored in it, returns the NoAccessToken error without any request. *)
Theorem BeginAuth_then_FetchUser `{env : Env}
    (AuthCodeURL : Config.t -> string -> string)
    (p : Provider.t) (c : Config.t) (state : string) (w : World) :
  Provider.config p = Some c ->
  exists sess : Session.t,
    BeginAuth AuthCodeURL p state = Return (sess, None) /\
    Session.AuthURL sess = AuthCodeURL c state /\
    Session.AccessToken sess = "" /\
    FetchUser p sess w
      = (Return (sessionRecord p sess, Some (ErrorNoAccessToken (Name p))),
         w, []).
Proof.
  intros Hconfig. unfold BeginAuth. rewrite Hconfig.
  eexists. split; [reflexivity|]. split; [reflexivity|].
  split; [reflexivity|].
  rewrite FetchUser_run. reflexivity.
Qed.

(** X21. [BeginAuth] returns, with a nil error, on every provider built by
    [New], renamed or not; on a provider without configuration, which is
    one that [New] did not build, it panics. *)
Theorem BeginAuth_needs_New
    (AuthCodeURL : Config.t -> string -> string)
    (clientKey secret callbackURL state : string) (scopes : list string) :
  (forall names : list string,
     exists sess : Session.t,
       BeginAuth AuthCodeURL
         (foldl SetName (New clientKey secret callbackURL scopes) names) state
       = Return (sess, None) /\
       Session.AuthURL sess =
         AuthCodeURL
           (newConfig (Provider.mk clientKey secret callbackURL None
                         "xero2" scopes) scopes)
           state) /\
  (forall name : string,
     BeginAuth AuthCodeURL
       (Provider.mk clientKey secret callbackURL None name scopes) state
     = Panic panicNilDereference).
Proof.
  split; [|reflexivity].
  intros names.
  assert (Hconfig : forall p,
            Provider.config (foldl SetName p names) = Provider.config p).
  { induction names as [|name names IH]; intros p; [reflexivity|].
    cbn [foldl]. now rewrite IH. }
  unfold BeginAuth. rewrite Hconfig. cbn [New Provider.setConfig Provider.config].
  eexists. split; reflexivity.
Qed.

(** [SetName] changes the name and nothing else: the last name set is
    the provider's name, the credentials, the scopes and the configuration
    stay, and the session that [BeginAuth] returns is the same as before
    the renaming. *)
Theorem SetName_changes_name_only
    (AuthCodeURL : Config.t -> string -> string)
    (p : Provider.t) (name1 name2 state : string) :
  Name (SetName (SetName p name1) name2) = name2 /\
  SetName (SetName p name1) name2 = SetName p name2 /\
  SetName p (Name p) = p /\
  Provider.config (SetName p name1) = Provider.config p /\
  Provider.ClientKey (SetName p name1) = Provider.ClientKey p /\
  Provider.Secret (SetName p name1) = Provider.Secret p /\
  Provider.CallbackURL (SetName p name1) = Provider.CallbackURL p /\
  Provider.scopes (SetName p name1) = Provider.scopes p /\
  BeginAuth AuthCodeURL (SetName p name1) state = BeginAuth AuthCodeURL p state.
Proof.
  destruct p. repeat split; reflexivity.
Qed.

(* --------------------------------------------------------------------- *)
(** *** The further properties on concrete runs *)

Lemma FetchUser_discovery_status_witness :
  @FetchUser (Scripted.env (Scripted.status 401)
                           (Scripted.ok Scripted.oneOrganisation))
    Scripted.provider Scripted.session 0%nat
  = (Return (User.mk "" "xero2" "" "" "" "1234567890" "r-1" Time.zero,
             Some (ErrorUpstreamStatusTenants "xero2" 401)),
     1%nat,
     [EvDo (tenantsRequest Scripted.session); EvClose (Scripted.status 401)]).
Proof.
  apply (@FetchUser_discovery_status
           (Scripted.env (Scripted.status 401)
                         (Scripted.ok Scripted.oneOrganisation))
           Scripted.provider Scripted.session 0%nat
           (Scripted.status 401) 1%nat).
  - discriminate.
  - reflexivity.
  - discriminate.
Defined.

Lemma FetchUser_discovery_transport_error_witness :
  @FetchUser (Scripted2.env Scripted2.failure
                            (Scripted2.answer (Scripted.ok Scripted.oneOrganisation)))
    Scripted.provider Scripted.session 0%nat
  = (Return (User.mk "" "xero2" "" "" "" "1234567890" "r-1" Time.zero,
             Some Scripted2.timeout),
     1%nat, [EvDo (tenantsRequest Scripted.session)]).
Proof.
  apply (@FetchUser_discovery_transport_error
           (Scripted2.env Scripted2.failure
              (Scripted2.answer (Scripted.ok Scripted.oneOrganisation)))
           Scripted.provider Scripted.session 0%nat
           Scripted2.failure Scripted2.timeout 1%nat).
  - discriminate.
  - reflexivity.
  - reflexivity.
Defined.

Lemma FetchUser_discovery_unreadable_witness :
  @FetchUser (Scripted2.env (Scripted2.answer (Scripted.ok Scripted2.notJSON))
                            (Scripted2.answer (Scripted.ok Scripted.oneOrganisation)))
    Scripted.provider Scripted.session 0%nat
  = (Return (User.mk "" "xero2" "" "" "" "1234567890" "r-1" Time.zero,
             Some Scripted.syntaxError),
     1%nat,
     [EvDo (tenantsRequest Scripted.session);
      EvClose (Scripted.ok Scripted2.notJSON)]).
Proof.
  apply (@FetchUser_discovery_unreadable
           (Scripted2.env (Scripted2.answer (Scripted.ok Scripted2.notJSON))
              (Scripted2.answer (Scripted.ok Scripted.oneOrganisation)))
           Scripted.provider Scripted.session 0%nat
           (Scripted.ok Scripted2.notJSON) 1%nat Scripted.syntaxError).
  - discriminate.
  - reflexivity.
  - reflexivity.
  - right. split; reflexivity.
Defined.

Lemma fetchAuthorizedTenants_error_nil_witness :
  exists tenants : list (option XeroTenant.t),
    @fetchAuthorizedTenants
      (Scripted.env (Scripted.status 401)
                    (Scripted.ok Scripted.oneOrganisation))
      Scripted.provider Scripted.session 0%nat
    = (Return (tenants, Some (ErrorUpstreamStatusTenants "xero2" 401)), 1%nat,
       [EvDo (tenantsRequest Scripted.session);
        EvClose (Scripted.status 401)]) /\
    tenants = [].
Proof.
  exists []. split; [reflexivity|].
  exact (@fetchAuthorizedTenants_error_nil
           (Scripted.env (Scripted.status 401)
                         (Scripted.ok Scripted.oneOrganisation))
           Scripted.provider Scripted.session 0%nat
           [] (ErrorUpstreamStatusTenants "xero2" 401) 1%nat
           [EvDo (tenantsRequest Scripted.session);
            EvClose (Scripted.status 401)]
           eq_refl).
Defined.

Lemma FetchUser_profile_status_witness :
  @FetchUser (Scripted.env (Scripted.ok Scripted.oneTenant)
                           (Scripted.status 503))
    Scripted.provider Scripted.session 0%nat
  = (Return (User.mk "" "xero2" "" "" "" "1234567890" "r-1" Time.zero,
             Some (ErrorUpstreamStatusProfile "xero2" 503)),
     2%nat,
     [EvDo (tenantsRequest Scripted.session);
      EvClose (Scripted.ok Scripted.oneTenant);
      EvDo (profileRequest Scripted.session "t-1");
      EvClose (Scripted.status 503)]).
Proof.
  apply (@FetchUser_profile_status
           (Scripted.env (Scripted.ok Scripted.oneTenant)
                         (Scripted.status 503))
           Scripted.provider Scripted.session 0%nat 1%nat
           (Scripted.ok Scripted.oneTenant) Scripted.tenant []
           ltac:(discriminate) eq_refl eq_refl eq_refl eq_refl
           (Scripted.status 503) 2%nat).
  - reflexivity.
  - discriminate.
Defined.

Lemma FetchUser_profile_transport_error_witness :
  @FetchUser (Scripted2.env (Scripted2.answer (Scripted.ok Scripted.oneTenant))
                            Scripted2.failure)
    Scripted.provider Scripted.session 0%nat
  = (Return (User.mk "" "xero2" "" "" "" "1234567890" "r-1" Time.zero,
             Some Scripted2.timeout),
     2%nat,
     [EvDo (tenantsRequest Scripted.session);
      EvClose (Scripted.ok Scripted.oneTenant);
      EvDo (profileRequest Scripted.session "t-1")]).
Proof.
  apply (@FetchUser_profile_transport_error
           (Scripted2.env (Scripted2.answer (Scripted.ok Scripted.oneTenant))
                          Scripted2.failure)
           Scripted.provider Scripted.session 0%nat 1%nat
           (Scripted.ok Scripted.oneTenant) Scripted.tenant []
           ltac:(discriminate) eq_refl eq_refl eq_refl eq_refl
           Scripted2.failure Scripted2.timeout 2%nat).
  - reflexivity.
  - reflexivity.
Defined.

Lemma FetchUser_profile_read_error_witness :
  @FetchUser (Scripted2.env (Scripted2.answer (Scripted.ok Scripted.oneTenant))
                            (Scripted2.answer Scripted2.unreadable))
    Scripted.provider Scripted.session 0%nat
  = (Return (User.mk "" "xero2" "" "" "" "1234567890" "r-1" Time.zero,
             Some (foreignError "io" "unexpected EOF")),
     2%nat,
     [EvDo (tenantsRequest Scripted.session);
      EvClose (Scripted.ok Scripted.oneTenant);
      EvDo (profileRequest Scripted.session "t-1");
      EvClose Scripted2.unreadable]).
Proof.
  apply (@FetchUser_profile_read_error
           (Scripted2.env (Scripted2.answer (Scripted.ok Scripted.oneTenant))
                          (Scripted2.answer Scripted2.unreadable))
           Scripted.provider Scripted.session 0%nat 1%nat
           (Scripted.ok Scripted.oneTenant) Scripted.tenant []
           ltac:(discriminate) eq_refl eq_refl eq_refl eq_refl
           Scripted2.unreadable 2%nat (foreignError "io" "unexpected EOF")).
  - reflexivity.
  - reflexivity.
  - reflexivity.
Defined.

Lemma FetchUser_profile_decode_error_witness :
  @FetchUser (Scripted2.env (Scripted2.answer (Scripted.ok Scripted.oneTenant))
                (Scripted2.answer (Scripted.ok Scripted2.badOrganisations)))
    Scripted.provider Scripted.session 0%nat
  = (Return (User.mk Scripted2.badOrganisations "xero2" "" "" ""
               "1234567890" "r-1" Time.zero,
             Some Scripted2.typeError),
     2%nat,
     [EvDo (tenantsRequest Scripted.session);
      EvClose (Scripted.ok Scripted.oneTenant);
      EvDo (profileRequest Scripted.session "t-1");
      EvClose (Scripted.ok Scripted2.badOrganisations)]).
Proof.
  apply (@FetchUser_profile_decode_error
           (Scripted2.env (Scripted2.answer (Scripted.ok Scripted.oneTenant))
              (Scripted2.answer (Scripted.ok Scripted2.badOrganisations)))
           Scripted.provider Scripted.session 0%nat 1%nat
           (Scripted.ok Scripted.oneTenant) Scripted.tenant []
           ltac:(discriminate) eq_refl eq_refl eq_refl eq_refl
           (Scripted.ok Scripted2.badOrganisations) 2%nat
           Scripted2.badOrganisations None ProfileView.zero
           (Some Scripted2.typeError) Scripted2.typeError).
  - reflexivity.
  - reflexivity.
  - reflexivity.
  - reflexivity.
  - reflexivity.
  - right. split; reflexivity.
Defined.

Lemma FetchUser_success_record_witness :
  @FetchUser (Scripted.env (Scripted.ok Scripted.oneTenant)
                           (Scripted.ok Scripted.oneOrganisation))
    Scripted.provider Scripted.session 0%nat
  = (Return (User.mk Scripted.oneOrganisation "xero2" "Acme" "Acme Ltd" "!aC3"
               "1234567890" "r-1" Time.zero, None),
     2%nat,
     [EvDo (tenantsRequest Scripted.session);
      EvClose (Scripted.ok Scripted.oneTenant);
      EvDo (profileRequest Scripted.session "t-1");
      EvClose (Scripted.ok Scripted.oneOrganisation)]).
Proof.
  apply (@FetchUser_success_record
           (Scripted.env (Scripted.ok Scripted.oneTenant)
                         (Scripted.ok Scripted.oneOrganisation))
           Scripted.provider Scripted.session 0%nat 1%nat
           (Scripted.ok Scripted.oneTenant) Scripted.tenant []
           ltac:(discriminate) eq_refl eq_refl eq_refl eq_refl
           (Scripted.ok Scripted.oneOrganisation) 2%nat
           Scripted.oneOrganisation
           (ProfileView.mk [Scripted.organisation])
           Scripted.organisation []).
  - reflexivity.
  - reflexivity.
  - reflexivity.
  - reflexivity.
  - reflexivity.
  - reflexivity.
Defined.

Lemma FetchUser_success_only_witness :
  let E := Scripted.env (Scripted.ok Scripted.oneTenant)
                        (Scripted.ok Scripted.oneOrganisation) in
  exists response w1 t0 tenants resp raw u o orgs,
    Session.AccessToken Scripted.session <> "" /\
    @clientDo E (tenantsRequest Scripted.session) 0%nat
      = ((Some response, None), w1) /\
    Response.StatusCode response = StatusOK /\
    Body.readError (Response.Body response) = None /\
    @decodeTenants E (Body.bits (Response.Body response)) []
      = (Some t0 :: tenants, None) /\
    @clientDo E (profileRequest Scripted.session (XeroTenant.TenantID t0)) w1
      = ((Some resp, None), 2%nat) /\
    Response.StatusCode resp = StatusOK /\
    Body.readError (Response.Body resp) = None /\
    @decodeRawData E (Body.bits (Response.Body resp)) (@nilRawData E)
      = (raw, None) /\
    @decodeProfile E (Body.bits (Response.Body resp)) ProfileView.zero
      = (u, None) /\
    ProfileView.Organisations u = o :: orgs /\
    User.mk Scripted.oneOrganisation "xero2" "Acme" "Acme Ltd" "!aC3"
      "1234567890" "r-1" Time.zero
    = User.mk raw (Name Scripted.provider) (XeroOrganization.Name o)
        (XeroOrganization.LegalName o) (XeroOrganization.ShortCode o)
        (Session.AccessToken Scripted.session)
        (Session.RefreshToken Scripted.session)
        (Session.ExpiresAt Scripted.session) /\
    [EvDo (tenantsRequest Scripted.session);
     EvClose (Scripted.ok Scripted.oneTenant);
     EvDo (profileRequest Scripted.session "t-1");
     EvClose (Scripted.ok Scripted.oneOrganisation)]
    = [EvDo (tenantsRequest Scripted.session); EvClose response;
       EvDo (profileRequest Scripted.session (XeroTenant.TenantID t0));
       EvClose resp].
Proof.
  exact (@FetchUser_success_only
           (Scripted.env (Scripted.ok Scripted.oneTenant)
                         (Scripted.ok Scripted.oneOrganisation))
           Scripted.provider Scripted.session 0%nat
           (User.mk Scripted.oneOrganisation "xero2" "Acme" "Acme Ltd" "!aC3"
              "1234567890" "r-1" Time.zero)
           2%nat
           [EvDo (tenantsRequest Scripted.session);
            EvClose (Scripted.ok Scripted.oneTenant);
            EvDo (profileRequest Scripted.session "t-1");
            EvClose (Scripted.ok Scripted.oneOrganisation)]
           eq_refl).
Defined.


Lemma FetchUser_error_no_identity_witness :
  let user : User.t string :=
    User.mk "" "xero2" "" "" "" "1234567890" "r-1" Time.zero in
  User.Name user = "" /\ User.NickName user = "" /\ User.UserID user = "".
Proof.
  exact (@FetchUser_error_no_identity
           (Scripted.env (Scripted.status 401)
                         (Scripted.ok Scripted.oneOrganisation))
           Scripted.provider Scripted.session 0%nat
           (User.mk "" "xero2" "" "" "" "1234567890" "r-1" Time.zero)
           (ErrorUpstreamStatusTenants "xero2" 401) 1%nat
           [EvDo (tenantsRequest Scripted.session);
            EvClose (Scripted.status 401)]
           eq_refl).
Defined.


Lemma New_given_scopes_witness :
  Config.Scopes <$>
    Provider.config (New "key" "secret" "/foo" ["openid"; "accounting.contacts"])
  = Some ["openid "; "accounting.contacts "].
Proof.
  apply (New_given_scopes "key" "secret" "/foo"
           ["openid"; "accounting.contacts"]).
  discriminate.
Defined.

Lemma BeginAuth_then_FetchUser_witness :
  let E := Scripted.env (Scripted.ok Scripted.oneTenant)
                        (Scripted.ok Scripted.oneOrganisation) in
  let codeURL := fun (c : Config.t) (state : string) =>
    Endpoint.AuthURL (Config.Endpoint c) +:+ "?state=" +:+ state in
  exists sess : Session.t,
    BeginAuth codeURL Scripted.provider "test_state" = Return (sess, None) /\
    Session.AuthURL sess =
      "https://login.xero.com/identity/connect/authorize?state=test_state" /\
    Session.AccessToken sess = "" /\
    @FetchUser E Scripted.provider sess 0%nat
      = (Return (@sessionRecord E Scripted.provider sess,
                 Some (ErrorNoAccessToken "xero2")), 0%nat, []).
Proof.
  exact (@BeginAuth_then_FetchUser
           (Scripted.env (Scripted.ok Scripted.oneTenant)
                         (Scripted.ok Scripted.oneOrganisation))
           (fun (c : Config.t) (state : string) =>
              Endpoint.AuthURL (Config.Endpoint c) +:+ "?state=" +:+ state)
           Scripted.provider
           (newConfig (Provider.mk "key" "secret" "/foo" None "xero2" []) [])
           "test_state" 0%nat eq_refl).
Defined.
